(** * lmdb++.h: resource wrappers and error taxonomy over the LMDB C API

    A shallow embedding of the C++11 header [lmdb++.h].  The header is a thin
    layer over the procedural interface of the storage engine ([lmdb.h]): every
    function calls one engine entry point, inspects the returned status code
    and either returns or throws.  The engine itself is external; it is taken
    here as an interface ([Engine]) over an arbitrary process state, and all
    results hold for every implementation of that interface. *)

From Stdlib Require Import ZArith NArith List String Bool Lia.
From Stdlib Require Import Init.Byte.
Import ListNotations.
Local Open Scope string_scope.
Local Open Scope list_scope.

Set Implicit Arguments.

(** ** Machine-level data *)

(** Addresses and [std::size_t] quantities are naturals; [nullptr] is address
    zero.  Status codes are C [int]s; the header only compares them, so no
    arithmetic (and no wrap-around) ever takes place on them. *)
Definition ptr := N.
Definition nullptr : ptr := 0%N.
Definition size_t := N.
Definition MDB_dbi := N.

(** [if (p)] on a pointer. *)
Definition to_bool (p : ptr) : bool := negb (N.eqb p nullptr).

(** Return codes of [lmdb.h] (the engine's header, group "errors"). *)
Definition MDB_SUCCESS   : Z := 0.
Definition MDB_KEYEXIST  : Z := -30799.
Definition MDB_NOTFOUND  : Z := -30798.
Definition MDB_CORRUPTED : Z := -30796.
Definition MDB_PANIC     : Z := -30795.
Definition MDB_MAP_FULL  : Z := -30792.

(** ** Error handling *)

(** The exception classes.  [std_runtime_error] stands for the root
    [std::runtime_error] from which [lmdb::error] derives. *)
Inductive exn_class : Type :=
| std_runtime_error
| lmdb_error
| logic_error
| fatal_error
| runtime_error
| key_exist_error
| not_found_error
| corrupted_error
| panic_error.

(** Direct base class, as written in each [class ... : public ...]. *)
Definition base_class (c : exn_class) : option exn_class :=
  match c with
  | std_runtime_error => None
  | lmdb_error        => Some std_runtime_error
  | logic_error       => Some lmdb_error
  | fatal_error       => Some lmdb_error
  | runtime_error     => Some lmdb_error
  | key_exist_error   => Some runtime_error
  | not_found_error   => Some runtime_error
  | corrupted_error   => Some fatal_error
  | panic_error       => Some fatal_error
  end.

Definition exn_class_eqb (a b : exn_class) : bool :=
  match a, b with
  | std_runtime_error, std_runtime_error | lmdb_error, lmdb_error
  | logic_error, logic_error | fatal_error, fatal_error
  | runtime_error, runtime_error | key_exist_error, key_exist_error
  | not_found_error, not_found_error | corrupted_error, corrupted_error
  | panic_error, panic_error => true
  | _, _ => false
  end.

(** [catch (const c&)] matches an exception of dynamic class [d] when [c] is
    [d] or one of its bases; the hierarchy is three levels deep below
    [std::runtime_error]. *)
Fixpoint derives_within (fuel : nat) (d c : exn_class) : bool :=
  exn_class_eqb d c ||
  match fuel with
  | O => false
  | S fuel' =>
      match base_class d with
      | Some b => derives_within fuel' b c
      | None => false
      end
  end.

Definition caught_by (d c : exn_class) : bool := derives_within 3 d c.

(** An exception object: its dynamic class and the two members of
    [lmdb::error] ([origin()] and [code()]). *)
Record exception : Type := mk_exception {
  dynamic_class : exn_class;
  origin : string;
  code : Z
}.

(** ** Outcomes and the state/exception monad *)

(** A call either returns a value, leaves by a thrown exception, or has no
    defined behaviour (a read through a dangling or null pointer). *)
Inductive Outcome (A : Type) : Type :=
| Returns (a : A)
| Throws (e : exception)
| Undefined.
Arguments Throws {A} e.
Arguments Undefined {A}.

Definition M (S A : Type) : Type := S -> Outcome A * S.

Definition ret {S A} (a : A) : M S A := fun s => (Returns a, s).

Definition bind {S A B} (m : M S A) (k : A -> M S B) : M S B :=
  fun s =>
    match m s with
    | (Returns a, s') => k a s'
    | (Throws e, s')  => (Throws e, s')
    | (Undefined, s') => (Undefined, s')
    end.

Definition throw {S A} (e : exception) : M S A := fun s => (Throws e, s).
Definition undefined {S A} : M S A := fun s => (Undefined, s).

Declare Scope lmdb_scope.
Delimit Scope lmdb_scope with lmdb.
Notation "x <- m ;; k" := (bind m (fun x => k))
  (at level 100, m at next level, right associativity) : lmdb_scope.
Notation "m ;;; k" := (bind m (fun _ => k))
  (at level 100, right associativity) : lmdb_scope.
Open Scope lmdb_scope.

(** Methods run on a state made of the object ([*this]) and the rest of the
    world; free functions run on the world alone. *)
Definition lift {O W A} (m : M W A) : M (O * W) A :=
  fun s => let (r, w') := m (snd s) in (r, (fst s, w')).

Definition this {O W} : M (O * W) O := fun s => (Returns (fst s), s).

Definition assign_this {O W} (o : O) : M (O * W) unit :=
  fun s => (Returns tt, (o, snd s)).

Definition returns_normally {S A} (r : Outcome A * S) : Prop :=
  exists a, fst r = Returns a.

Definition raises {S A} (r : Outcome A * S) : Prop :=
  exists e, fst r = Throws e.

(** [lmdb::error::raise]: the [switch] over the return code.  The function is
    declared [[noreturn]]: every branch, the [default] one included, throws. *)
Module error.

Definition raise {S A} (origin : string) (rc : Z) : M S A :=
  if Z.eqb rc MDB_KEYEXIST then throw (mk_exception key_exist_error origin rc)
  else if Z.eqb rc MDB_NOTFOUND then throw (mk_exception not_found_error origin rc)
  else if Z.eqb rc MDB_CORRUPTED then throw (mk_exception corrupted_error origin rc)
  else if Z.eqb rc MDB_PANIC then throw (mk_exception panic_error origin rc)
  else throw (mk_exception runtime_error origin rc).

End error.

(** ** Memory, views and engine records *)

(** Process memory is a finite, byte-addressed store: the byte at address [a]
    is the [a]-th element.  A read that starts at [nullptr] or that leaves the
    store has no defined result. *)
Definition Memory := list byte.

Definition load_bytes (m : Memory) (p : ptr) (n : size_t) : option (list byte) :=
  if N.eqb p nullptr then None
  else if (N.to_nat p + N.to_nat n <=? List.length m)%nat
       then Some (firstn (N.to_nat n) (skipn (N.to_nat p) m))
       else None.

(** [std::strlen]: scan to the first zero byte. *)
Fixpoint scan_to_nul (bs : list byte) : option size_t :=
  match bs with
  | [] => None
  | b :: bs' =>
      if Byte.eqb b x00 then Some 0%N
      else option_map N.succ (scan_to_nul bs')
  end.

Definition strlen (m : Memory) (s : ptr) : option size_t :=
  if N.eqb s nullptr then None else scan_to_nul (skipn (N.to_nat s) m).

(** [MDB_val] of [lmdb.h]: [{ size_t mv_size; void* mv_data; }]. *)
Record MDB_val : Type := mk_MDB_val {
  mv_size : size_t;
  mv_data : ptr
}.

(** [MDB_val val{};] *)
Definition MDB_val_zero : MDB_val := mk_MDB_val 0%N nullptr.

(** The bytes a view denotes. *)
Definition view_bytes (m : Memory) (v : MDB_val) : option (list byte) :=
  load_bytes m (mv_data v) (mv_size v).

(** [MDB_stat] of [lmdb.h]. *)
Record MDB_stat : Type := mk_MDB_stat {
  ms_psize : N;
  ms_depth : N;
  ms_branch_pages : size_t;
  ms_leaf_pages : size_t;
  ms_overflow_pages : size_t;
  ms_entries : size_t
}.

(** [MDB_cursor_op] of [lmdb.h]. *)
Inductive MDB_cursor_op : Type :=
| MDB_FIRST | MDB_FIRST_DUP | MDB_GET_BOTH | MDB_GET_BOTH_RANGE
| MDB_GET_CURRENT | MDB_GET_MULTIPLE | MDB_LAST | MDB_LAST_DUP
| MDB_NEXT | MDB_NEXT_DUP | MDB_NEXT_MULTIPLE | MDB_NEXT_NODUP
| MDB_PREV | MDB_PREV_DUP | MDB_PREV_NODUP
| MDB_SET | MDB_SET_KEY | MDB_SET_RANGE.

(** A fixed-layout type: its objects are handled through their bytes.
    [sizeof] is the size of the object representation, [object_bytes] the
    representation itself and [from_bytes] the reading of an object out of
    [sizeof] bytes ([*reinterpret_cast<const T*>(p)]). *)
Class Layout (T : Type) : Type := {
  sizeof : size_t;
  object_bytes : T -> list byte;
  from_bytes : list byte -> T;
  object_bytes_length : forall x, N.of_nat (List.length (object_bytes x)) = sizeof;
  from_object_bytes : forall x, from_bytes (object_bytes x) = x
}.

(** An object [x] lives at address [a]. *)
Definition stored_at {T} `{Layout T} (m : Memory) (a : ptr) (x : T) : Prop :=
  load_bytes m a sizeof = Some (object_bytes x).

(** ** The engine interface *)

(** The entry points of [lmdb.h] that the modelled part of the header calls.
    [St] is the state of the process outside the wrapper objects: the
    engine's own bookkeeping together with memory.  Out-parameters come back
    in the result, next to the status code. *)
Class Engine (St : Type) : Type := {
  heap : St -> Memory;
  mdb_env_close : ptr -> St -> St;
  mdb_txn_commit : ptr -> St -> Z * St;
  mdb_txn_abort : ptr -> St -> St;
  mdb_stat : ptr -> MDB_dbi -> St -> Z * MDB_stat * St;
  mdb_get : ptr -> MDB_dbi -> MDB_val -> MDB_val -> St -> Z * MDB_val * St;
  mdb_cursor_close : ptr -> St -> St;
  mdb_cursor_get :
    ptr -> MDB_val -> option MDB_val -> MDB_cursor_op -> St ->
    Z * MDB_val * option MDB_val * St
}.

(** Every crossing into the engine, with the arguments passed. *)
Inductive Call : Type :=
| Call_env_close (env : ptr)
| Call_txn_commit (txn : ptr)
| Call_txn_abort (txn : ptr)
| Call_stat (txn : ptr) (dbi : MDB_dbi)
| Call_get (txn : ptr) (dbi : MDB_dbi) (key data : MDB_val)
| Call_cursor_close (cursor : ptr)
| Call_cursor_get (cursor : ptr) (key : MDB_val) (data : option MDB_val)
                  (op : MDB_cursor_op).

Definition is_release (c : Call) : bool :=
  match c with
  | Call_env_close _ | Call_cursor_close _ => true
  | _ => false
  end.

Definition is_resolution (c : Call) : bool :=
  match c with
  | Call_txn_commit _ | Call_txn_abort _ => true
  | _ => false
  end.

(** The world: the process state and the history of engine calls, oldest
    first. *)
Record World (St : Type) : Type := mk_World {
  state : St;
  calls : list Call
}.

(** ** Procedural interface *)

Section Procedural.
Context {St : Type} `{Engine St}.

Definition record_call (c : Call) (st' : St) (w : World St) : World St :=
  mk_World st' (calls w ++ [c]).

(** One crossing into the engine: the entry point runs on the process state
    and the call enters the history. *)
Definition foreign {A} (c : Call) (f : St -> A * St) : M (World St) A :=
  fun w => let (a, st') := f (state w) in (Returns a, record_call c st' w).

(** [lmdb::env_close], [noexcept]. *)
Definition env_close (env : ptr) : M (World St) unit :=
  foreign (Call_env_close env) (fun st => (tt, mdb_env_close env st)).

(** [lmdb::txn_commit]. *)
Definition txn_commit (txn : ptr) : M (World St) unit :=
  rc <- foreign (Call_txn_commit txn) (mdb_txn_commit txn) ;;
  if negb (Z.eqb rc MDB_SUCCESS)
  then error.raise "mdb_txn_commit" rc
  else ret tt.

(** [lmdb::txn_abort], [noexcept]. *)
Definition txn_abort (txn : ptr) : M (World St) unit :=
  foreign (Call_txn_abort txn) (fun st => (tt, mdb_txn_abort txn st)).

(** [lmdb::dbi_stat]; the filled [*result] is returned. *)
Definition dbi_stat (txn : ptr) (dbi : MDB_dbi) : M (World St) MDB_stat :=
  r <- foreign (Call_stat txn dbi) (mdb_stat txn dbi) ;;
  let (rc, result) := r in
  if negb (Z.eqb rc MDB_SUCCESS)
  then error.raise "mdb_stat" rc
  else ret result.

(** [lmdb::dbi_get]; the value comes with [*data] as the engine left it. *)
Definition dbi_get (txn : ptr) (dbi : MDB_dbi) (key data : MDB_val)
  : M (World St) (bool * MDB_val) :=
  r <- foreign (Call_get txn dbi key data) (mdb_get txn dbi key data) ;;
  let (rc, data') := r in
  if negb (Z.eqb rc MDB_SUCCESS) && negb (Z.eqb rc MDB_NOTFOUND)
  then error.raise "mdb_get" rc
  else ret (Z.eqb rc MDB_SUCCESS, data').

(** [lmdb::cursor_close], [noexcept]. *)
Definition cursor_close (cursor : ptr) : M (World St) unit :=
  foreign (Call_cursor_close cursor) (fun st => (tt, mdb_cursor_close cursor st)).

(** [lmdb::cursor_get]; [data] may be [nullptr] ([None]).  The value comes
    with [*key] and [*data] as the engine left them. *)
Definition cursor_get (cursor : ptr) (key : MDB_val) (data : option MDB_val)
           (op : MDB_cursor_op)
  : M (World St) (bool * (MDB_val * option MDB_val)) :=
  r <- foreign (Call_cursor_get cursor key data op)
               (mdb_cursor_get cursor key data op) ;;
  let '(rc, key', data') := r in
  if negb (Z.eqb rc MDB_SUCCESS) && negb (Z.eqb rc MDB_NOTFOUND)
  then error.raise "mdb_cursor_get" rc
  else ret (Z.eqb rc MDB_SUCCESS, (key', data')).

End Procedural.

(** ** Resource interface *)

(** [try { m } catch (...) {}] *)
Definition catch_all {S} (m : M S unit) : M S unit :=
  fun s =>
    match m s with
    | (Throws _, s') => (Returns tt, s')
    | r => r
    end.

(** A read of [n] bytes at [p], as a dereference performs it. *)
Definition load {St} `{Engine St} (p : ptr) (n : size_t) : M (World St) (list byte) :=
  fun w =>
    match load_bytes (heap (state w)) p n with
    | Some bs => (Returns bs, w)
    | None => (Undefined, w)
    end.

(** [class lmdb::env] *)
Module env.

Record t : Type := mk { _handle : ptr }.

Section Methods.
Context {St : Type} `{Engine St}.

Definition handle : M (t * World St) ptr :=
  o <- this ;; ret (_handle o).

(** [void close() noexcept] *)
Definition close : M (t * World St) unit :=
  h <- handle ;;
  if to_bool h
  then (h' <- handle ;;
        lift (env_close h') ;;;
        assign_this (mk nullptr))
  else ret tt.

(** [~env() noexcept] *)
Definition destructor : M (t * World St) unit := catch_all close.

End Methods.

End env.

(** [class lmdb::txn] *)
Module txn.

Record t : Type := mk { _handle : ptr }.

Section Methods.
Context {St : Type} `{Engine St}.

Definition handle : M (t * World St) ptr :=
  o <- this ;; ret (_handle o).

(** [~txn() noexcept]: the body of the [if] holds a comment and the
    assignment only. *)
Definition destructor : M (t * World St) unit :=
  o <- this ;;
  if to_bool (_handle o)
  then assign_this (mk nullptr)
  else ret tt.

(** [void commit()] *)
Definition commit : M (t * World St) unit :=
  o <- this ;;
  lift (txn_commit (_handle o)) ;;;
  assign_this (mk nullptr).

(** [void abort() noexcept] *)
Definition abort : M (t * World St) unit :=
  o <- this ;;
  lift (txn_abort (_handle o)) ;;;
  assign_this (mk nullptr).

End Methods.

End txn.

(** [class lmdb::dbi] *)
Module dbi.

Record t : Type := mk { _handle : MDB_dbi }.

Section Methods.
Context {St : Type} `{Engine St}.

Definition handle : M (t * World St) MDB_dbi :=
  o <- this ;; ret (_handle o).

(** [MDB_stat stat(MDB_txn* txn) const] *)
Definition stat (txn : ptr) : M (t * World St) MDB_stat :=
  h <- handle ;;
  lift (dbi_stat txn h).

(** [std::size_t size(MDB_txn* txn) const] *)
Definition size (txn : ptr) : M (t * World St) size_t :=
  result <- stat txn ;;
  ret (ms_entries result).

(** [template<typename K> bool get(MDB_txn* txn, const K& k) const];
    the reference [k] is the address of the caller's object. *)
Definition get (K : Type) `{Layout K} (txn : ptr) (k : ptr)
  : M (t * World St) bool :=
  let val := MDB_val_zero in
  let key := mk_MDB_val (sizeof (T:=K)) k in
  h <- handle ;;
  r <- lift (dbi_get txn h key val) ;;
  ret (fst r).

(** [template<typename K, typename V>
     bool get(MDB_txn* txn, const K& k, V& v) const];
    the value carries the content of [v] on return. *)
Definition get_kv (K V : Type) `{Layout K} `{Layout V}
           (txn : ptr) (k : ptr) (v : V)
  : M (t * World St) (bool * V) :=
  let val := MDB_val_zero in
  let key := mk_MDB_val (sizeof (T:=K)) k in
  h <- handle ;;
  r <- lift (dbi_get txn h key val) ;;
  let (result, val') := r in
  if result
  then (bs <- lift (load (mv_data val') (sizeof (T:=V))) ;;
        ret (result, from_bytes (T:=V) bs))
  else ret (result, v).

End Methods.

End dbi.

(** [class lmdb::cursor] *)
Module cursor.

Record t : Type := mk { _handle : ptr }.

Section Methods.
Context {St : Type} `{Engine St}.

Definition handle : M (t * World St) ptr :=
  o <- this ;; ret (_handle o).

(** [void close() noexcept] *)
Definition close : M (t * World St) unit :=
  h <- handle ;;
  if to_bool h
  then (h' <- handle ;;
        lift (cursor_close h') ;;;
        assign_this (mk nullptr))
  else ret tt.

(** [~cursor() noexcept] *)
Definition destructor : M (t * World St) unit := catch_all close.

(** [bool get(MDB_val* key, MDB_val* data, MDB_cursor_op op)] *)
Definition get (key : MDB_val) (data : option MDB_val) (op : MDB_cursor_op)
  : M (t * World St) (bool * (MDB_val * option MDB_val)) :=
  h <- handle ;;
  lift (cursor_get h key data op).

(** [bool get(MDB_val* key, MDB_cursor_op op)] *)
Definition get_key (key : MDB_val) (op : MDB_cursor_op)
  : M (t * World St) (bool * (MDB_val * option MDB_val)) :=
  get key None op.

(** [template<typename K> bool find(const K& k)] *)
Definition find (K : Type) `{Layout K} (k : ptr) : M (t * World St) bool :=
  let val := MDB_val_zero in
  let key := mk_MDB_val (sizeof (T:=K)) k in
  r <- get key (Some val) MDB_SET ;;
  ret (fst r).

End Methods.

End cursor.

(** [class lmdb::val] *)
Module val.

Record t : Type := mk { _val : MDB_val }.

(** The part of a [std::string] the constructor looks at. *)
Record std_string : Type := mk_std_string {
  data : ptr;
  size : size_t
}.

(** [val(const char* data, std::size_t size) noexcept] *)
Definition from_data_size (data : ptr) (size : size_t) : t :=
  mk (mk_MDB_val size data).

(** [val(const std::string& data) noexcept] *)
Definition from_string (s : std_string) : t :=
  from_data_size (data s) (size s).

(** [val(const char* data) noexcept] *)
Definition from_c_str {St} `{Engine St} (data : ptr) : M (World St) t :=
  fun w =>
    match strlen (heap (state w)) data with
    | Some n => (Returns (from_data_size data n), w)
    | None => (Undefined, w)
    end.

(** [operator MDB_val*()] *)
Definition to_MDB_val (v : t) : MDB_val := _val v.

End val.

(** ** A scripted engine and two fixed-layout types, for running the model *)

(** An engine that answers every call with the same status code, view and
    statistics, over a fixed memory. *)
Record Script : Type := mk_Script {
  reply_rc : Z;
  reply_data : MDB_val;
  reply_stat : MDB_stat;
  contents : Memory
}.

#[export] Instance scripted_engine : Engine Script := {|
  heap := contents;
  mdb_env_close := fun _ s => s;
  mdb_txn_commit := fun _ s => (reply_rc s, s);
  mdb_txn_abort := fun _ s => s;
  mdb_stat := fun _ _ s => (reply_rc s, reply_stat s, s);
  mdb_get := fun _ _ _ data s =>
    (reply_rc s, if Z.eqb (reply_rc s) MDB_SUCCESS then reply_data s else data, s);
  mdb_cursor_close := fun _ s => s;
  mdb_cursor_get := fun _ key data _ s =>
    (reply_rc s, key,
     if Z.eqb (reply_rc s) MDB_SUCCESS then option_map (fun _ => reply_data s) data
     else data, s)
|}.

(** [unsigned char] *)
#[export] Instance uchar_layout : Layout byte := {|
  sizeof := 1%N;
  object_bytes := fun b => [b];
  from_bytes := fun bs => hd x00 bs;
  object_bytes_length := fun _ => eq_refl;
  from_object_bytes := fun _ => eq_refl
|}.

(** [struct { unsigned char c[4]; }] *)
Record char4 : Type := mk_char4 { c0 : byte; c1 : byte; c2 : byte; c3 : byte }.

#[export] Instance char4_layout : Layout char4 := {|
  sizeof := 4%N;
  object_bytes := fun x => [c0 x; c1 x; c2 x; c3 x];
  from_bytes := fun bs => mk_char4 (nth 0 bs x00) (nth 1 bs x00) (nth 2 bs x00) (nth 3 bs x00);
  object_bytes_length := fun _ => eq_refl;
  from_object_bytes := fun x => match x with mk_char4 _ _ _ _ => eq_refl end
|}.

(** Sixteen bytes of memory: the string "key" at address 1, the byte [2a] at
    address 5, a one-byte record [07] at address 8 followed by engine data,
    and the bytes "key!" without terminator at the end. *)
Definition sample_memory : Memory :=
  [x00; x6b; x65; x79; x00; x2a; x00; x00;
   x07; xaa; xbb; xcc; x6b; x65; x79; x21].

Definition sample_stat : MDB_stat := mk_MDB_stat 4096%N 1%N 0%N 1%N 0%N 3%N.

Definition sample_world (rc : Z) (found : MDB_val) : World Script :=
  mk_World (mk_Script rc found sample_stat sample_memory) [].

(** [struct { unsigned char tag; unsigned short id; }] on a target where
    [unsigned short] has two bytes and is aligned on two: four bytes, of
    which the second is padding.  The value of an object is its tag and the
    two bytes of [id]; the padding byte is no part of it, and a copy or an
    assignment member by member leaves it as it is.  [object_bytes] is the
    representation with the padding byte zero. *)
Record tagged : Type := mk_tagged { tag : byte; id0 : byte; id1 : byte }.

#[export] Instance tagged_layout : Layout tagged := {|
  sizeof := 4%N;
  object_bytes := fun x => [tag x; x00; id0 x; id1 x];
  from_bytes := fun bs => mk_tagged (nth 0 bs x00) (nth 2 bs x00) (nth 3 bs x00);
  object_bytes_length := fun _ => eq_refl;
  from_object_bytes := fun x => match x with mk_tagged _ _ _ => eq_refl end
|}.

(** Twelve bytes of memory holding two [tagged] objects of the same value
    (tag [01], id [1234] in little-endian order), at addresses 4 and 8; their
    padding bytes are [00] and [ff]. *)
Definition padded_memory : Memory :=
  [x00; x00; x00; x00;
   x01; x00; x34; x12;
   x01; xff; x34; x12].

Definition padded_world : World Script :=
  mk_World (mk_Script MDB_NOTFOUND MDB_val_zero sample_stat padded_memory) [].

(** ** Predicates used in the statements *)

(** An object of value [x] lies at address [a]: reading an object of the
    type there gives [x]. *)
Definition holds {T} `{Layout T} (m : Memory) (a : ptr) (x : T) : Prop :=
  exists bs, load_bytes m a sizeof = Some bs /\ from_bytes bs = x.

(** The key of a lookup call. *)
Definition key_of_call (c : Call) : option MDB_val :=
  match c with
  | Call_get _ _ key _ => Some key
  | Call_cursor_get _ key _ _ => Some key
  | _ => None
  end.

(** The key of the latest call of a history, when that is a lookup, and the
    bytes this key denotes in memory [m]: what the engine reads as the
    key. *)
Definition last_key (cs : list Call) : option MDB_val :=
  match rev cs with
  | c :: _ => key_of_call c
  | [] => None
  end.

Definition key_bytes_passed (m : Memory) (cs : list Call) : option (list byte) :=
  match last_key cs with
  | Some key => view_bytes m key
  | None => None
  end.

(** How a lookup wrapper turns the engine's status code [rc] into its result
    [r]; [v] is what the wrapper hands back next to the boolean and [name]
    the engine call it reports. *)
Definition lookup_contract {A} (name : string) (rc : Z) (v : A)
           (r : Outcome (bool * A)) : Prop :=
  (rc = MDB_NOTFOUND -> r = Returns (false, v))
  /\ (rc = MDB_SUCCESS -> r = Returns (true, v))
  /\ ((exists v', r = Returns (true, v')) <-> rc = MDB_SUCCESS)
  /\ (rc <> MDB_SUCCESS -> rc <> MDB_NOTFOUND ->
      exists e, r = Throws e
                /\ code e = rc /\ origin e = name
                /\ caught_by (dynamic_class e) lmdb_error = true
                /\ dynamic_class e <> not_found_error).

(** [n] calls of a method in a row. *)
Fixpoint times {S} (n : nat) (m : M S unit) : M S unit :=
  match n with
  | O => ret tt
  | S n' => (m ;;; times n' m)
  end.

(** How many releases ([mdb_env_close], [mdb_cursor_close]) a history holds. *)
Definition release_count (cs : list Call) : nat :=
  List.length (filter is_release cs).

(** The null-terminated string [chars] lies at address [s]: its bytes, none
    of them zero, are followed by a zero byte. *)
Definition c_string_at (m : Memory) (s : ptr) (chars : list byte) : Prop :=
  s <> nullptr
  /\ Forall (fun b => b <> x00) chars
  /\ exists rest, skipn (N.to_nat s) m = chars ++ x00 :: rest.

(** ** The rest of the engine interface *)

(** The entry points of [lmdb.h] behind the remaining functions of the
    header.  An out-parameter is passed with the content it has at the call
    and comes back in the result.  [const char*] arguments (a path, a
    database name) are addresses. *)
Class EngineMore (St : Type) {E : Engine St} : Type := {
  mdb_env_create : ptr -> St -> Z * ptr * St;
  mdb_env_open : ptr -> ptr -> N -> N -> St -> Z * St;
  mdb_env_sync : ptr -> Z -> St -> Z * St;
  mdb_env_set_flags : ptr -> N -> Z -> St -> Z * St;
  mdb_env_set_mapsize : ptr -> size_t -> St -> Z * St;
  mdb_env_set_maxreaders : ptr -> N -> St -> Z * St;
  mdb_env_set_maxdbs : ptr -> MDB_dbi -> St -> Z * St;
  mdb_txn_begin : ptr -> ptr -> N -> ptr -> St -> Z * ptr * St;
  mdb_txn_env : ptr -> St -> ptr * St;
  mdb_txn_reset : ptr -> St -> St;
  mdb_txn_renew : ptr -> St -> Z * St;
  mdb_dbi_open : ptr -> ptr -> N -> MDB_dbi -> St -> Z * MDB_dbi * St;
  mdb_dbi_flags : ptr -> MDB_dbi -> N -> St -> Z * N * St;
  mdb_dbi_close : ptr -> MDB_dbi -> St -> St;
  mdb_cursor_open : ptr -> MDB_dbi -> ptr -> St -> Z * ptr * St;
  mdb_cursor_renew : ptr -> ptr -> St -> Z * St;
  mdb_cursor_txn : ptr -> St -> ptr * St;
  mdb_cursor_dbi : ptr -> St -> MDB_dbi * St;
  mdb_cursor_put : ptr -> MDB_val -> MDB_val -> N -> St -> Z * (MDB_val * MDB_val) * St;
  mdb_cursor_del : ptr -> N -> St -> Z * St;
  mdb_cursor_count : ptr -> size_t -> St -> Z * size_t * St
}.
Arguments EngineMore St {E}.

(** [try { m } catch (const c&) { handler }]: the handler runs on an exception
    whose class is [c] or derives from it; any other exception passes. *)
Definition try_catch {S A} (m : M S A) (c : exn_class) (handler : exception -> M S A)
  : M S A :=
  fun s =>
    match m s with
    | (Throws e, s') =>
        if caught_by (dynamic_class e) c then handler e s' else (Throws e, s')
    | r => r
    end.

(** [assert(c)] of [<cassert>]: nothing when [c] holds, and nothing at all
    when [NDEBUG] is defined.  Otherwise the program is aborted: the call
    neither returns nor throws, which is what [Undefined] stands for here. *)
Definition assert_ {S} (NDEBUG : bool) (c : bool) : M S unit :=
  if NDEBUG || c then ret tt else undefined.

(** ** Procedural interface, continued *)

Section ProceduralMore.
Context {St : Type} `{EngineMore St}.

(** A crossing through one of the entry points above.  [Call] names the
    entry points of the first group only; these crossings are followed
    through the process state, and the history of the first group's calls
    stays as it is. *)
Definition crossing {A} (f : St -> A * St) : M (World St) A :=
  fun w => let (a, st') := f (state w) in (Returns a, mk_World st' (calls w)).

(** [lmdb::env_create]; the value is what the engine left in [*env]. *)
Definition env_create (env : ptr) : M (World St) ptr :=
  r <- crossing (mdb_env_create env) ;;
  let (rc, env') := r in
  if negb (Z.eqb rc MDB_SUCCESS)
  then error.raise "mdb_env_create" rc
  else ret env'.

(** [lmdb::env_open] *)
Definition env_open (env : ptr) (path : ptr) (flags : N) (mode : N)
  : M (World St) unit :=
  rc <- crossing (mdb_env_open env path flags mode) ;;
  if negb (Z.eqb rc MDB_SUCCESS)
  then error.raise "mdb_env_open" rc
  else ret tt.

(** [lmdb::env_sync]; the [bool] converts to [int]. *)
Definition env_sync (env : ptr) (force : bool) : M (World St) unit :=
  rc <- crossing (mdb_env_sync env (Z.b2z force)) ;;
  if negb (Z.eqb rc MDB_SUCCESS)
  then error.raise "mdb_env_sync" rc
  else ret tt.

(** [lmdb::env_set_flags]; the engine gets [onoff ? 1 : 0]. *)
Definition env_set_flags (env : ptr) (flags : N) (onoff : bool)
  : M (World St) unit :=
  rc <- crossing (mdb_env_set_flags env flags (if onoff then 1 else 0)%Z) ;;
  if negb (Z.eqb rc MDB_SUCCESS)
  then error.raise "mdb_env_set_flags" rc
  else ret tt.

(** [lmdb::env_set_map_size] *)
Definition env_set_map_size (env : ptr) (size : size_t) : M (World St) unit :=
  rc <- crossing (mdb_env_set_mapsize env size) ;;
  if negb (Z.eqb rc MDB_SUCCESS)
  then error.raise "mdb_env_set_mapsize" rc
  else ret tt.

(** [lmdb::env_set_max_readers] *)
Definition env_set_max_readers (env : ptr) (count : N) : M (World St) unit :=
  rc <- crossing (mdb_env_set_maxreaders env count) ;;
  if negb (Z.eqb rc MDB_SUCCESS)
  then error.raise "mdb_env_set_maxreaders" rc
  else ret tt.

(** [lmdb::env_set_max_dbs] *)
Definition env_set_max_dbs (env : ptr) (count : MDB_dbi) : M (World St) unit :=
  rc <- crossing (mdb_env_set_maxdbs env count) ;;
  if negb (Z.eqb rc MDB_SUCCESS)
  then error.raise "mdb_env_set_maxdbs" rc
  else ret tt.

(** [lmdb::txn_begin]; the value is what the engine left in [*txn]. *)
Definition txn_begin (env : ptr) (parent : ptr) (flags : N) (txn : ptr)
  : M (World St) ptr :=
  r <- crossing (mdb_txn_begin env parent flags txn) ;;
  let (rc, txn') := r in
  if negb (Z.eqb rc MDB_SUCCESS)
  then error.raise "mdb_txn_begin" rc
  else ret txn'.

(** [lmdb::txn_env], [noexcept]. *)
Definition txn_env (txn : ptr) : M (World St) ptr :=
  crossing (mdb_txn_env txn).

(** [lmdb::txn_reset], [noexcept]. *)
Definition txn_reset (txn : ptr) : M (World St) unit :=
  crossing (fun st => (tt, mdb_txn_reset txn st)).

(** [lmdb::txn_renew] *)
Definition txn_renew (txn : ptr) : M (World St) unit :=
  rc <- crossing (mdb_txn_renew txn) ;;
  if negb (Z.eqb rc MDB_SUCCESS)
  then error.raise "mdb_txn_renew" rc
  else ret tt.

(** [lmdb::dbi_open]; the value is what the engine left in [*dbi]. *)
Definition dbi_open (txn : ptr) (name : ptr) (flags : N) (dbi : MDB_dbi)
  : M (World St) MDB_dbi :=
  r <- crossing (mdb_dbi_open txn name flags dbi) ;;
  let (rc, dbi') := r in
  if negb (Z.eqb rc MDB_SUCCESS)
  then error.raise "mdb_dbi_open" rc
  else ret dbi'.

(** [lmdb::dbi_flags]; the value is what the engine left in [*flags]. *)
Definition dbi_flags (txn : ptr) (dbi : MDB_dbi) (flags : N) : M (World St) N :=
  r <- crossing (mdb_dbi_flags txn dbi flags) ;;
  let (rc, flags') := r in
  if negb (Z.eqb rc MDB_SUCCESS)
  then error.raise "mdb_dbi_flags" rc
  else ret flags'.

(** [lmdb::dbi_close], [noexcept]. *)
Definition dbi_close (env : ptr) (dbi : MDB_dbi) : M (World St) unit :=
  crossing (fun st => (tt, mdb_dbi_close env dbi st)).

(** [lmdb::cursor_open]; the value is what the engine left in [*cursor]. *)
Definition cursor_open (txn : ptr) (dbi : MDB_dbi) (cursor : ptr)
  : M (World St) ptr :=
  r <- crossing (mdb_cursor_open txn dbi cursor) ;;
  let (rc, cursor') := r in
  if negb (Z.eqb rc MDB_SUCCESS)
  then error.raise "mdb_cursor_open" rc
  else ret cursor'.

(** [lmdb::cursor_renew] *)
Definition cursor_renew (txn : ptr) (cursor : ptr) : M (World St) unit :=
  rc <- crossing (mdb_cursor_renew txn cursor) ;;
  if negb (Z.eqb rc MDB_SUCCESS)
  then error.raise "mdb_cursor_renew" rc
  else ret tt.

(** [lmdb::cursor_txn], [noexcept]. *)
Definition cursor_txn (cursor : ptr) : M (World St) ptr :=
  crossing (mdb_cursor_txn cursor).

(** [lmdb::cursor_dbi], [noexcept]. *)
Definition cursor_dbi (cursor : ptr) : M (World St) MDB_dbi :=
  crossing (mdb_cursor_dbi cursor).

(** [lmdb::cursor_put]; the value is [*key] and [*data] as the engine left
    them. *)
Definition cursor_put (cursor : ptr) (key data : MDB_val) (flags : N)
  : M (World St) (MDB_val * MDB_val) :=
  r <- crossing (mdb_cursor_put cursor key data flags) ;;
  let (rc, kd) := r in
  if negb (Z.eqb rc MDB_SUCCESS)
  then error.raise "mdb_cursor_put" rc
  else ret kd.

(** [lmdb::cursor_del] *)
Definition cursor_del (cursor : ptr) (flags : N) : M (World St) unit :=
  rc <- crossing (mdb_cursor_del cursor flags) ;;
  if negb (Z.eqb rc MDB_SUCCESS)
  then error.raise "mdb_cursor_del" rc
  else ret tt.

(** [lmdb::cursor_count]; the value is what the engine left in [count]. *)
Definition cursor_count (cursor : ptr) (count : size_t) : M (World St) size_t :=
  r <- crossing (mdb_cursor_count cursor count) ;;
  let (rc, count') := r in
  if negb (Z.eqb rc MDB_SUCCESS)
  then error.raise "mdb_cursor_count" rc
  else ret count'.

End ProceduralMore.

(** ** Resource interface, continued *)

(** [return T{handle};] for a class [T] with a destructor and no move
    constructor, as C++11 defines it.  The operand is a temporary and the
    returned object is copy-initialised from it.  The copy may be elided
    ([elide]): the temporary then is the returned object and nothing else
    happens.  When it is not elided, the implicit copy constructor copies the
    members (the handle) into the returned object, and the temporary is
    destroyed at the end of the [return] statement: [destructor] runs on
    it. *)
Definition return_temporary {O W} (elide : bool) (destructor : M (O * W) unit)
           (temporary : O) : M W O :=
  if elide then ret temporary
  else fun w =>
         match destructor (temporary, w) with
         | (Returns _, (_, w')) => (Returns temporary, w')
         | (Throws e, (_, w')) => (Throws e, w')
         | (Undefined, (_, w')) => (Undefined, w')
         end.

(** [class lmdb::env], the remaining members. *)
Module Env.
Section Methods.
Context {St : Type} `{EngineMore St}.

Definition default_flags : N := 0%N.

(** [0644], [-rw-r--r--] *)
Definition default_mode : N := 420%N.

(** [static env create(unsigned int flags)]; the last statement is
    [return env{handle};]. *)
Definition create (NDEBUG : bool) (elide : bool) (flags : N) : M (World St) env.t :=
  handle <- env_create nullptr ;;
  (assert_ NDEBUG (to_bool handle) ;;;
   ((if negb (N.eqb flags 0)
     then try_catch (env_set_flags handle flags true) lmdb_error
            (fun e => (env_close handle ;;; throw e))
     else ret tt) ;;;
    return_temporary elide env.destructor (env.mk handle))).

(** [void sync(bool force)] *)
Definition sync (force : bool) : M (env.t * World St) unit :=
  h <- env.handle ;;
  lift (env_sync h force).

(** [env& open(const char* path, unsigned int flags, mode mode)]; the value
    is [*this]. *)
Definition open (path : ptr) (flags : N) (mode : N) : M (env.t * World St) env.t :=
  h <- env.handle ;;
  (lift (env_open h path flags mode) ;;; this).

(** [env& set_flags(unsigned int flags, bool onoff)] *)
Definition set_flags (flags : N) (onoff : bool) : M (env.t * World St) env.t :=
  h <- env.handle ;;
  (lift (env_set_flags h flags onoff) ;;; this).

(** [env& set_map_size(std::size_t size)] *)
Definition set_map_size (size : size_t) : M (env.t * World St) env.t :=
  h <- env.handle ;;
  (lift (env_set_map_size h size) ;;; this).

(** [env& set_max_readers(unsigned int count)] *)
Definition set_max_readers (count : N) : M (env.t * World St) env.t :=
  h <- env.handle ;;
  (lift (env_set_max_readers h count) ;;; this).

(** [env& set_max_dbs(MDB_dbi count)] *)
Definition set_max_dbs (count : MDB_dbi) : M (env.t * World St) env.t :=
  h <- env.handle ;;
  (lift (env_set_max_dbs h count) ;;; this).

End Methods.
End Env.

(** [class lmdb::txn], the remaining members. *)
Module Txn.
Section Methods.
Context {St : Type} `{EngineMore St}.

Definition default_flags : N := 0%N.

(** [static txn begin(MDB_env* env, MDB_txn* parent, unsigned int flags)] *)
Definition begin (NDEBUG : bool) (env : ptr) (parent : ptr) (flags : N)
  : M (World St) txn.t :=
  handle <- txn_begin env parent flags nullptr ;;
  (assert_ NDEBUG (to_bool handle) ;;;
   ret (txn.mk handle)).

(** [void reset() noexcept] *)
Definition reset : M (txn.t * World St) unit :=
  o <- this ;;
  lift (txn_reset (txn._handle o)).

(** [void renew()] *)
Definition renew : M (txn.t * World St) unit :=
  o <- this ;;
  lift (txn_renew (txn._handle o)).

(** [MDB_env* env() const noexcept] *)
Definition env : M (txn.t * World St) ptr :=
  h <- txn.handle ;;
  lift (txn_env h).

End Methods.
End Txn.

(** [class lmdb::dbi], the remaining members. *)
Module Dbi.
Section Methods.
Context {St : Type} `{EngineMore St}.

Definition default_flags : N := 0%N.

(** [static dbi open(MDB_txn* txn, const char* name, unsigned int flags)] *)
Definition open (txn : ptr) (name : ptr) (flags : N) : M (World St) dbi.t :=
  handle <- dbi_open txn name flags 0%N ;;
  ret (dbi.mk handle).

(** [~dbi() noexcept]: the body of the [if] is a comment. *)
Definition destructor : M (dbi.t * World St) unit :=
  o <- this ;;
  if negb (N.eqb (dbi._handle o) 0)
  then ret tt
  else ret tt.

(** [unsigned int flags(MDB_txn* txn) const] *)
Definition flags (txn : ptr) : M (dbi.t * World St) N :=
  h <- dbi.handle ;;
  lift (dbi_flags txn h 0%N).

End Methods.
End Dbi.

(** [class lmdb::cursor], the remaining members. *)
Module Cursor.
Section Methods.
Context {St : Type} `{EngineMore St}.

(** [static cursor open(MDB_txn* txn, MDB_dbi dbi)]; the last statement is
    [return cursor{handle};]. *)
Definition open (NDEBUG : bool) (elide : bool) (txn : ptr) (dbi : MDB_dbi)
  : M (World St) cursor.t :=
  handle <- cursor_open txn dbi nullptr ;;
  (assert_ NDEBUG (to_bool handle) ;;;
   return_temporary elide cursor.destructor (cursor.mk handle)).

(** [void renew(MDB_txn* txn)] *)
Definition renew (txn : ptr) : M (cursor.t * World St) unit :=
  h <- cursor.handle ;;
  lift (cursor_renew txn h).

(** [MDB_txn* txn() const noexcept] *)
Definition txn : M (cursor.t * World St) ptr :=
  h <- cursor.handle ;;
  lift (cursor_txn h).

(** [MDB_dbi dbi() const noexcept] *)
Definition dbi : M (cursor.t * World St) MDB_dbi :=
  h <- cursor.handle ;;
  lift (cursor_dbi h).

End Methods.
End Cursor.



(** ** An engine that keeps count of its handles *)

(** A second engine for running the model: it answers the coming calls with
    the status codes of a script (zero once the script is used up), hands
    out fresh handles, and keeps the list of the handles it has handed out
    and not yet been asked to release. *)
Record Sim : Type := mk_Sim {
  answers : list Z;
  fresh : ptr;
  live : list ptr;
  sim_memory : Memory
}.

Definition answer (s : Sim) : Z := hd MDB_SUCCESS (answers s).

Definition consume (s : Sim) : Sim :=
  mk_Sim (tl (answers s)) (fresh s) (live s) (sim_memory s).

Definition status_only (s : Sim) : Z * Sim := (answer s, consume s).

Definition acquire (s : Sim) : Z * ptr * Sim :=
  if Z.eqb (answer s) MDB_SUCCESS
  then (MDB_SUCCESS, fresh s,
        mk_Sim (tl (answers s)) (N.succ (fresh s)) (fresh s :: live s) (sim_memory s))
  else (answer s, nullptr, consume s).

Definition release (h : ptr) (s : Sim) : Sim :=
  mk_Sim (answers s) (fresh s) (filter (fun x => negb (N.eqb x h)) (live s))
         (sim_memory s).

#[export] Instance sim_engine : Engine Sim := {|
  heap := sim_memory;
  mdb_env_close := release;
  mdb_txn_commit := fun h s => (answer s, release h (consume s));
  mdb_txn_abort := release;
  mdb_stat := fun _ _ s => (answer s, sample_stat, consume s);
  mdb_get := fun _ _ _ data s => (answer s, data, consume s);
  mdb_cursor_close := release;
  mdb_cursor_get := fun _ key data _ s => (answer s, key, data, consume s)
|}.

#[export] Instance sim_engine_more : EngineMore Sim := {|
  mdb_env_create := fun _ s => acquire s;
  mdb_env_open := fun _ _ _ _ s => status_only s;
  mdb_env_sync := fun _ _ s => status_only s;
  mdb_env_set_flags := fun _ _ _ s => status_only s;
  mdb_env_set_mapsize := fun _ _ s => status_only s;
  mdb_env_set_maxreaders := fun _ _ s => status_only s;
  mdb_env_set_maxdbs := fun _ _ s => status_only s;
  mdb_txn_begin := fun _ _ _ _ s => acquire s;
  mdb_txn_env := fun _ s => (nullptr, s);
  mdb_txn_reset := fun _ s => s;
  mdb_txn_renew := fun _ s => status_only s;
  mdb_dbi_open := fun _ _ _ dbi s => (answer s, if Z.eqb (answer s) MDB_SUCCESS then 1%N else dbi, consume s);
  mdb_dbi_flags := fun _ _ flags s => (answer s, flags, consume s);
  mdb_dbi_close := fun _ _ s => s;
  mdb_cursor_open := fun _ _ _ s => acquire s;
  mdb_cursor_renew := fun _ _ s => status_only s;
  mdb_cursor_txn := fun _ s => (nullptr, s);
  mdb_cursor_dbi := fun _ s => (1%N, s);
  mdb_cursor_put := fun _ key data _ s => (answer s, (key, data), consume s);
  mdb_cursor_del := fun _ _ s => status_only s;
  mdb_cursor_count := fun _ count s => (answer s, count, consume s)
|}.

(** A world of [sim_engine] with the given script, no live handle and
    [sample_memory]; the first handle handed out is 4096. *)
Definition sim_world (script : list Z) : World Sim :=
  mk_World (mk_Sim script 4096%N [] sample_memory) [].

(** How a wrapper that raises on every nonzero status turns the reply of its
    engine call into its result [r], from the world [w]: [rc] is the status
    code, [v] the value the wrapper hands back on success, [st'] the process
    state the engine left and [name] the engine call the exception reports. *)
Definition propagates {St A} (name : string) (w : World St) (rc : Z) (v : A)
           (st' : St) (r : Outcome A * World St) : Prop :=
  snd r = mk_World st' (calls w)
  /\ (rc = MDB_SUCCESS -> fst r = Returns v)
  /\ (rc <> MDB_SUCCESS ->
      exists e, fst r = Throws e
                /\ code e = rc /\ origin e = name
                /\ caught_by (dynamic_class e) lmdb_error = true)
  /\ (returns_normally r <-> rc = MDB_SUCCESS).

(** A method that leaves the object it is called on as it found it, however
    it comes back. *)
Definition keeps_this {O W A} (m : M (O * W) A) : Prop :=
  forall o w, fst (snd (m (o, w))) = o.

(** * Properties *)

(** ** Basic facts about the monad and about the status codes *)

Lemma bind_returns {S A B} (m : M S A) (k : A -> M S B) s a s' :
  m s = (Returns a, s') -> bind m k s = k a s'.
Proof. intros E. unfold bind. now rewrite E. Qed.

Lemma bind_throws {S A B} (m : M S A) (k : A -> M S B) s e s' :
  m s = (Throws e, s') -> bind m k s = (Throws e, s').
Proof. intros E. unfold bind. now rewrite E. Qed.

Lemma lift_run {O W A} (m : M W A) (o : O) (w : W) :
  lift m (o, w) = (fst (m w), (o, snd (m w))).
Proof. unfold lift. simpl. now destruct (m w). Qed.

Lemma to_bool_nullptr : to_bool nullptr = false.
Proof. reflexivity. Qed.

Lemma to_bool_true (p : ptr) : to_bool p = true <-> p <> nullptr.
Proof.
  unfold to_bool. rewrite negb_true_iff. apply N.eqb_neq.
Qed.

(** Closes one branch of the [switch]: the exception is the one written in
    the branch, and the other labels are excluded by the value of [rc]. *)
Ltac read_case_label :=
  eexists; split; [reflexivity|]; try subst;
  repeat split; intros; (reflexivity || discriminate || contradiction).

(** The class thrown for a status code, read off the [case] labels. *)
Lemma raise_throws {S A} (origin : string) (rc : Z) (s : S) :
  exists c, error.raise (A:=A) origin rc s = (Throws (mk_exception c origin rc), s)
            /\ (rc = MDB_KEYEXIST -> c = key_exist_error)
            /\ (rc = MDB_NOTFOUND -> c = not_found_error)
            /\ (rc = MDB_CORRUPTED -> c = corrupted_error)
            /\ (rc = MDB_PANIC -> c = panic_error)
            /\ (rc <> MDB_KEYEXIST -> rc <> MDB_NOTFOUND ->
                rc <> MDB_CORRUPTED -> rc <> MDB_PANIC -> c = runtime_error).
Proof.
  unfold error.raise, throw.
  destruct (Z.eqb_spec rc MDB_KEYEXIST) as [E1|N1]; [read_case_label|].
  destruct (Z.eqb_spec rc MDB_NOTFOUND) as [E2|N2]; [read_case_label|].
  destruct (Z.eqb_spec rc MDB_CORRUPTED) as [E3|N3]; [read_case_label|].
  destruct (Z.eqb_spec rc MDB_PANIC) as [E4|N4]; [read_case_label|].
  read_case_label.
Qed.

(** Whatever is thrown by [raise] is an [lmdb::error]. *)
Lemma raise_is_lmdb_error {S A} (origin : string) (rc : Z) (s : S) e :
  fst (error.raise (A:=A) origin rc s) = Throws e ->
  caught_by (dynamic_class e) lmdb_error = true.
Proof.
  unfold error.raise, throw.
  repeat match goal with |- context [if ?b then _ else _] => destruct b end;
    simpl; intros E; inversion E; reflexivity.
Qed.

Section ProceduralFacts.
Context {St : Type} `{Engine St}.

(** The two ways out of [txn_commit]. *)
Lemma txn_commit_success (txn : ptr) (w : World St) :
  fst (mdb_txn_commit txn (state w)) = MDB_SUCCESS ->
  txn_commit txn w =
  (Returns tt, record_call (Call_txn_commit txn) (snd (mdb_txn_commit txn (state w))) w).
Proof.
  intros E. unfold txn_commit, bind, foreign.
  destruct (mdb_txn_commit txn (state w)) as [rc st']. simpl in *. subst rc.
  reflexivity.
Qed.

Lemma txn_commit_failure (txn : ptr) (w : World St) :
  fst (mdb_txn_commit txn (state w)) <> MDB_SUCCESS ->
  txn_commit txn w =
  error.raise "mdb_txn_commit" (fst (mdb_txn_commit txn (state w)))
    (record_call (Call_txn_commit txn) (snd (mdb_txn_commit txn (state w))) w).
Proof.
  intros E. unfold txn_commit, bind, foreign.
  destruct (mdb_txn_commit txn (state w)) as [rc st']. simpl in *.
  apply Z.eqb_neq in E. now rewrite E.
Qed.

(** [txn::commit] clears the handle exactly on the path that returns. *)
Lemma commit_success (t : txn.t) (w : World St) :
  fst (mdb_txn_commit (txn._handle t) (state w)) = MDB_SUCCESS ->
  txn.commit (t, w) =
  (Returns tt,
   (txn.mk nullptr,
    record_call (Call_txn_commit (txn._handle t))
                (snd (mdb_txn_commit (txn._handle t) (state w))) w)).
Proof.
  intros E. unfold txn.commit, bind, this. simpl.
  rewrite lift_run, (txn_commit_success _ _ E). reflexivity.
Qed.

Lemma commit_failure (t : txn.t) (w : World St) :
  fst (mdb_txn_commit (txn._handle t) (state w)) <> MDB_SUCCESS ->
  raises (txn.commit (t, w)) /\ fst (snd (txn.commit (t, w))) = t.
Proof.
  intros E. unfold txn.commit, bind, this. simpl.
  rewrite lift_run, (txn_commit_failure _ _ E).
  destruct (raise_throws (A:=unit) "mdb_txn_commit"
              (fst (mdb_txn_commit (txn._handle t) (state w)))
              (record_call (Call_txn_commit (txn._handle t))
                 (snd (mdb_txn_commit (txn._handle t) (state w))) w))
    as (c & -> & _).
  simpl. split; [eexists; reflexivity | reflexivity].
Qed.

End ProceduralFacts.

(** ** Error classification *)

(** C1, as stated, fails at status zero: [raise] applied to [MDB_SUCCESS]
    does raise.  The [switch] has no [case] for zero, so control reaches
    [default] and an [lmdb::runtime_error] carrying code 0 is thrown. *)
Lemma raise_at_status_zero_raises :
  error.raise (A:=unit) "mdb_txn_commit" MDB_SUCCESS (sample_world 0 MDB_val_zero)
  = (Throws (mk_exception runtime_error "mdb_txn_commit" 0),
     sample_world 0 MDB_val_zero)
  /\ raises (error.raise (A:=unit) "mdb_txn_commit" MDB_SUCCESS
               (sample_world 0 MDB_val_zero))
  /\ ~ returns_normally (error.raise (A:=unit) "mdb_txn_commit" MDB_SUCCESS
                           (sample_world 0 MDB_val_zero)).
Proof.
  split; [reflexivity|]. split.
  - eexists. reflexivity.
  - intros [a Ha]. discriminate Ha.
Qed.

Section Classification.
Context {St : Type} `{Engine St}.

(** C1 (amended): [lmdb::error::raise] throws on every status code and
    leaves the state alone.  The exception carries the given origin and
    code; its class is [key_exist_error] for [MDB_KEYEXIST],
    [not_found_error] for [MDB_NOTFOUND], [corrupted_error] for
    [MDB_CORRUPTED], [panic_error] for [MDB_PANIC] and the generic
    [runtime_error] for every other code, zero included.  The class depends
    on the code alone (same code, same class, in every state).  Status zero
    does not raise at the call sites: each wrapper tests
    [rc != MDB_SUCCESS] before it calls [raise], so [txn_commit],
    [dbi_stat], [dbi_get] and [cursor_get] return when the engine reports
    zero. *)
Theorem raise_classifies_status_code :
  forall (A : Type) (origin : string) (rc : Z) (w : World St),
    let r := error.raise (A:=A) origin rc w in
    raises r /\ snd r = w /\
    (exists c,
        fst r = Throws (mk_exception c origin rc)
        /\ (rc = MDB_KEYEXIST -> c = key_exist_error)
        /\ (rc = MDB_NOTFOUND -> c = not_found_error)
        /\ (rc = MDB_CORRUPTED -> c = corrupted_error)
        /\ (rc = MDB_PANIC -> c = panic_error)
        /\ (rc <> MDB_KEYEXIST -> rc <> MDB_NOTFOUND ->
            rc <> MDB_CORRUPTED -> rc <> MDB_PANIC -> c = runtime_error))
    /\ (forall w' : World St, fst (error.raise (A:=A) origin rc w') = fst r)
    /\ (forall txn,
           fst (mdb_txn_commit txn (state w)) = MDB_SUCCESS ->
           returns_normally (txn_commit txn w))
    /\ (forall txn dbi,
           fst (fst (mdb_stat txn dbi (state w))) = MDB_SUCCESS ->
           returns_normally (dbi_stat txn dbi w))
    /\ (forall txn dbi key data,
           fst (fst (mdb_get txn dbi key data (state w))) = MDB_SUCCESS ->
           returns_normally (dbi_get txn dbi key data w))
    /\ (forall cursor key data op,
           fst (fst (fst (mdb_cursor_get cursor key data op (state w)))) = MDB_SUCCESS ->
           returns_normally (cursor_get cursor key data op w)).
Proof.
  intros A origin rc w r. subst r.
  destruct (raise_throws (A:=A) origin rc w) as (c & E & K).
  rewrite E. simpl.
  split; [eexists; reflexivity|]. split; [reflexivity|].
  split; [exists c; split; [reflexivity | exact K]|].
  split.
  { intros w'. destruct (raise_throws (A:=A) origin rc w') as (c' & E' & K').
    rewrite E'. simpl. f_equal. f_equal.
    destruct K as (K1 & K2 & K3 & K4 & K5), K' as (K1' & K2' & K3' & K4' & K5').
    destruct (Z.eq_dec rc MDB_KEYEXIST) as [e1|n1]; [now rewrite K1, K1'|].
    destruct (Z.eq_dec rc MDB_NOTFOUND) as [e2|n2]; [now rewrite K2, K2'|].
    destruct (Z.eq_dec rc MDB_CORRUPTED) as [e3|n3]; [now rewrite K3, K3'|].
    destruct (Z.eq_dec rc MDB_PANIC) as [e4|n4]; [now rewrite K4, K4'|].
    now rewrite K5, K5'. }
  split.
  { intros txn E0. rewrite (txn_commit_success _ _ E0). eexists; reflexivity. }
  split.
  { intros txn dbi E0. unfold dbi_stat, bind, foreign.
    destruct (mdb_stat txn dbi (state w)) as [[rc0 result] st']. simpl in *.
    subst rc0. simpl. eexists; reflexivity. }
  split.
  { intros txn dbi key data E0. unfold dbi_get, bind, foreign.
    destruct (mdb_get txn dbi key data (state w)) as [[rc0 data'] st']. simpl in *.
    subst rc0. simpl. eexists; reflexivity. }
  intros cursor key data op E0. unfold cursor_get, bind, foreign.
  destruct (mdb_cursor_get cursor key data op (state w)) as [[[rc0 key'] data'] st'].
  simpl in *. subst rc0. simpl. eexists; reflexivity.
Qed.

End Classification.

(** ** Commit *)

(** C2: a commit that fails leaves the wrapper's handle as it was.  On the
    scripted engine answering [MDB_MAP_FULL], [commit()] on a transaction
    whose handle is 4096 throws [lmdb::runtime_error] from ["mdb_txn_commit"];
    the assignment [_handle = nullptr] is never reached, and [handle()] still
    yields 4096 although the engine call has been made. *)
Theorem commit_failure_keeps_handle :
  let r := txn.commit (txn.mk 4096%N, sample_world MDB_MAP_FULL MDB_val_zero) in
  fst r = Throws (mk_exception runtime_error "mdb_txn_commit" MDB_MAP_FULL)
  /\ txn._handle (fst (snd r)) = 4096%N
  /\ txn._handle (fst (snd r)) <> nullptr
  /\ calls (snd (snd r)) = [Call_txn_commit 4096%N].
Proof.
  cbv zeta. repeat split. discriminate.
Qed.

(** ** Lookups: absent is not an error *)

Section Lookups.
Context {St : Type} `{Engine St}.

Lemma lookup_contract_intro {A W} (origin : string) (rc : Z) (v : A) (w : W) :
  lookup_contract origin rc v
    (fst ((if negb (Z.eqb rc MDB_SUCCESS) && negb (Z.eqb rc MDB_NOTFOUND)
           then error.raise origin rc
           else ret (Z.eqb rc MDB_SUCCESS, v)) w)).
Proof.
  unfold lookup_contract.
  destruct (Z.eqb_spec rc MDB_SUCCESS) as [E0|N0]; simpl.
  - subst rc. unfold ret; simpl. repeat split; intros; try discriminate;
      try contradiction; try reflexivity. exists v; reflexivity.
  - destruct (Z.eqb_spec rc MDB_NOTFOUND) as [E1|N1]; simpl.
    + subst rc. unfold ret; simpl. repeat split; intros; try discriminate;
        try contradiction; try reflexivity.
      destruct H0 as [v' Hv']. discriminate Hv'.
    + destruct (raise_throws (A:=bool * A) origin rc w) as (c & E & K).
      rewrite E. simpl.
      repeat split; intros; try contradiction.
      * destruct H0 as [v' Hv']. discriminate Hv'.
      * eexists. split; [reflexivity|]. simpl.
        repeat split.
        -- apply (raise_is_lmdb_error (A:=bool * A) origin rc w
                    (e:=mk_exception c origin rc)). now rewrite E.
        -- intros Ec. destruct K as (K1 & K2 & K3 & K4 & K5).
           destruct (Z.eq_dec rc MDB_KEYEXIST) as [e1|n1];
             [rewrite (K1 e1) in Ec; discriminate|].
           destruct (Z.eq_dec rc MDB_CORRUPTED) as [e3|n3];
             [rewrite (K3 e3) in Ec; discriminate|].
           destruct (Z.eq_dec rc MDB_PANIC) as [e4|n4];
             [rewrite (K4 e4) in Ec; discriminate|].
           rewrite (K5 n1 N1 n3 n4) in Ec. discriminate.
Qed.

(** C3: [dbi_get] and [cursor_get] return [false], without raising, when
    the engine reports [MDB_NOTFOUND]; they return [true] exactly when it
    reports [MDB_SUCCESS]; on every other status code they throw an
    [lmdb::error] that carries the code and the name of the engine call,
    and whose class is never [not_found_error]. *)
Theorem lookup_absent_is_not_error :
  forall (txn : ptr) (dbi : MDB_dbi) (key data : MDB_val)
         (cursor : ptr) (ckey : MDB_val) (cdata : option MDB_val)
         (op : MDB_cursor_op) (w : World St),
    let g := mdb_get txn dbi key data (state w) in
    let c := mdb_cursor_get cursor ckey cdata op (state w) in
    lookup_contract "mdb_get" (fst (fst g)) (snd (fst g))
                    (fst (dbi_get txn dbi key data w))
    /\ lookup_contract "mdb_cursor_get" (fst (fst (fst c)))
                       (snd (fst (fst c)), snd (fst c))
                       (fst (cursor_get cursor ckey cdata op w)).
Proof.
  intros. subst g c. split.
  - unfold dbi_get, bind, foreign.
    destruct (mdb_get txn dbi key data (state w)) as [[rc data'] st']. simpl.
    apply (lookup_contract_intro "mdb_get" rc data').
  - unfold cursor_get, bind, foreign.
    destruct (mdb_cursor_get cursor ckey cdata op (state w))
      as [[[rc key'] data'] st']. simpl.
    apply (lookup_contract_intro "mdb_cursor_get" rc (key', data')).
Qed.

End Lookups.

(** ** Close *)

Section Close.
Context {St : Type} `{Engine St}.

Lemma env_close_open (e : env.t) (w : World St) :
  env._handle e <> nullptr ->
  env.close (e, w) =
  (Returns tt,
   (env.mk nullptr,
    record_call (Call_env_close (env._handle e))
                (mdb_env_close (env._handle e) (state w)) w)).
Proof.
  intros N. apply to_bool_true in N.
  unfold env.close, env.handle, bind, this, ret. simpl. rewrite N. reflexivity.
Qed.

Lemma env_close_closed (w : World St) :
  env.close (env.mk nullptr, w) = (Returns tt, (env.mk nullptr, w)).
Proof. reflexivity. Qed.

Lemma cursor_close_open (c : cursor.t) (w : World St) :
  cursor._handle c <> nullptr ->
  cursor.close (c, w) =
  (Returns tt,
   (cursor.mk nullptr,
    record_call (Call_cursor_close (cursor._handle c))
                (mdb_cursor_close (cursor._handle c) (state w)) w)).
Proof.
  intros N. apply to_bool_true in N.
  unfold cursor.close, cursor.handle, bind, this, ret. simpl. rewrite N. reflexivity.
Qed.

Lemma cursor_close_closed (w : World St) :
  cursor.close (cursor.mk nullptr, w) = (Returns tt, (cursor.mk nullptr, w)).
Proof. reflexivity. Qed.

(** A method that returns without touching a state keeps doing so. *)
Lemma times_fixed {S} (m : M S unit) (s : S) (n : nat) :
  m s = (Returns tt, s) -> times n m s = (Returns tt, s).
Proof.
  intros F. induction n as [|n IH]; simpl.
  - reflexivity.
  - now rewrite (bind_returns _ _ _ F).
Qed.

Lemma release_count_snoc (cs : list Call) (c : Call) :
  release_count (cs ++ [c]) <= release_count cs + 1.
Proof.
  unfold release_count. rewrite filter_app, length_app. simpl.
  destruct (is_release c); simpl; lia.
Qed.

(** C4: [close()] on an environment and on a cursor is idempotent.  The
    first call returns (nothing is thrown) and leaves [handle() == nullptr];
    a second call right after it returns as well and changes nothing, so
    the state after any number [n + 1] of calls is the state after one;
    the history of engine calls grows by at most one release. *)
Theorem close_is_idempotent :
  forall (e : env.t) (c : cursor.t) (w : World St) (n : nat),
    (let once := env.close (e, w) in
     fst once = Returns tt
     /\ env._handle (fst (snd once)) = nullptr
     /\ env.close (snd once) = once
     /\ times (S n) env.close (e, w) = once
     /\ release_count (calls (snd (snd once))) <= release_count (calls w) + 1)
    /\
    (let once := cursor.close (c, w) in
     fst once = Returns tt
     /\ cursor._handle (fst (snd once)) = nullptr
     /\ cursor.close (snd once) = once
     /\ times (S n) cursor.close (c, w) = once
     /\ release_count (calls (snd (snd once))) <= release_count (calls w) + 1).
Proof.
  intros [h] [k] w n. split; cbv zeta.
  - destruct (N.eq_dec h nullptr) as [-> | N].
    + rewrite env_close_closed. simpl. repeat split; try lia.
      change (bind env.close (fun _ => times n env.close) (env.mk nullptr, w)
              = (Returns tt, (env.mk nullptr, w))).
      rewrite (bind_returns _ _ _ (env_close_closed w)).
      apply times_fixed, env_close_closed.
    + rewrite (env_close_open (env.mk h) w N). simpl.
      repeat split; try apply release_count_snoc.
      change (bind env.close (fun _ => times n env.close) (env.mk h, w) = 
              (Returns tt, (env.mk nullptr,
                 record_call (Call_env_close h) (mdb_env_close h (state w)) w))).
      rewrite (bind_returns _ _ _ (env_close_open (env.mk h) w N)).
      apply times_fixed, env_close_closed.
  - destruct (N.eq_dec k nullptr) as [-> | N].
    + rewrite cursor_close_closed. simpl. repeat split; try lia.
      change (bind cursor.close (fun _ => times n cursor.close) (cursor.mk nullptr, w)
              = (Returns tt, (cursor.mk nullptr, w))).
      rewrite (bind_returns _ _ _ (cursor_close_closed w)).
      apply times_fixed, cursor_close_closed.
    + rewrite (cursor_close_open (cursor.mk k) w N). simpl.
      repeat split; try apply release_count_snoc.
      change (bind cursor.close (fun _ => times n cursor.close) (cursor.mk k, w) = 
              (Returns tt, (cursor.mk nullptr,
                 record_call (Call_cursor_close k) (mdb_cursor_close k (state w)) w))).
      rewrite (bind_returns _ _ _ (cursor_close_open (cursor.mk k) w N)).
      apply times_fixed, cursor_close_closed.
Qed.

End Close.

(** ** Transactions: destruction and abort *)

Section Transactions.
Context {St : Type} `{Engine St}.

(** C5: destroying a transaction wrapper makes no engine call.  Whatever
    the handle, the destructor returns with the world as it found it (the
    same process state, the same history: neither [mdb_txn_commit] nor
    [mdb_txn_abort] has been called), and the wrapper's own pointer is
    null afterwards. *)
Theorem txn_destructor_makes_no_engine_call :
  forall (t : txn.t) (w : World St),
    let r := txn.destructor (t, w) in
    fst r = Returns tt
    /\ snd (snd r) = w
    /\ filter is_resolution (calls (snd (snd r))) = filter is_resolution (calls w)
    /\ txn._handle (fst (snd r)) = nullptr.
Proof.
  intros [h] w. cbv zeta.
  unfold txn.destructor, bind, this, assign_this, ret. simpl.
  destruct (to_bool h) eqn:E; simpl.
  - repeat split.
  - repeat split.
    unfold to_bool in E. apply negb_false_iff in E. now apply N.eqb_eq in E.
Qed.

(** C6: [abort()] never raises.  It returns on every transaction and in
    every world; the engine's abort has been applied exactly once, to the
    wrapper's handle (this is what discards the transaction's effects),
    which is the only call added to the history; and [handle() == nullptr]
    afterwards. *)
Theorem abort_never_raises :
  forall (t : txn.t) (w : World St),
    let r := txn.abort (t, w) in
    fst r = Returns tt
    /\ ~ raises r
    /\ txn._handle (fst (snd r)) = nullptr
    /\ state (snd (snd r)) = mdb_txn_abort (txn._handle t) (state w)
    /\ calls (snd (snd r)) = calls w ++ [Call_txn_abort (txn._handle t)].
Proof.
  intros [h] w. cbv zeta.
  unfold txn.abort, bind, this, assign_this. simpl.
  repeat split. intros [e E]. discriminate E.
Qed.

End Transactions.

(** ** Database handles: statistics *)

Section Statistics.
Context {St : Type} `{Engine St}.

(** C9: [size(txn)] is the [ms_entries] field of [stat(txn)].  Run from
    the same state, the two leave the same state behind; when [stat]
    returns a record [size] returns its entry count, and [size] throws
    exactly when [stat] throws, with the same exception. *)
Theorem size_is_stat_entry_count :
  forall (d : dbi.t) (txn : ptr) (w : World St),
    let rs := dbi.stat txn (d, w) in
    let rz := dbi.size txn (d, w) in
    snd rz = snd rs
    /\ (forall result, fst rs = Returns result ->
                       fst rz = Returns (ms_entries result))
    /\ (forall n, fst rz = Returns n ->
                  exists result, fst rs = Returns result /\ ms_entries result = n)
    /\ (forall e, fst rz = Throws e <-> fst rs = Throws e)
    /\ (raises rz <-> raises rs).
Proof.
  intros d txn w. cbv zeta.
  unfold dbi.size, bind.
  destruct (dbi.stat txn (d, w)) as [[result | e | ] s']; simpl; unfold ret; simpl.
  - split; [reflexivity|]. split; [intros r E; now inversion E|].
    split; [intros n E; inversion E; now exists result|].
    split; [intros e; split; intros E; discriminate E|].
    split; intros [e E]; discriminate E.
  - split; [reflexivity|]. split; [intros r E; discriminate E|].
    split; [intros n E; discriminate E|].
    split; [intros e'; split; intros E; inversion E; reflexivity|].
    split; intros _; exists e; reflexivity.
  - split; [reflexivity|]. split; [intros r E; discriminate E|].
    split; [intros n E; discriminate E|].
    split; [intros e'; split; intros E; discriminate E|].
    split; intros [e E]; discriminate E.
Qed.

End Statistics.

(** When the engine reports success, [size] is the entry count it wrote. *)
Lemma size_reports_engine_count {St : Type} `{Engine St}
      (d : dbi.t) (txn : ptr) (w : World St) :
  fst (fst (mdb_stat txn (dbi._handle d) (state w))) = MDB_SUCCESS ->
  fst (dbi.size txn (d, w)) =
  Returns (ms_entries (snd (fst (mdb_stat txn (dbi._handle d) (state w))))).
Proof.
  intros E. unfold dbi.size, dbi.stat, dbi.handle, bind, this, ret. simpl.
  rewrite lift_run. unfold dbi_stat, bind, foreign.
  destruct (mdb_stat txn (dbi._handle d) (state w)) as [[rc result] st'].
  simpl in *. subst rc. reflexivity.
Qed.

(** ** Memory *)

Lemma load_bytes_length (m : Memory) (p : ptr) (n : size_t) (bs : list byte) :
  load_bytes m p n = Some bs -> List.length bs = N.to_nat n.
Proof.
  unfold load_bytes. destruct (N.eqb p nullptr); [discriminate|].
  destruct (Nat.leb_spec (N.to_nat p + N.to_nat n) (List.length m)) as [L|L];
    [|discriminate].
  intros E. inversion E. rewrite length_firstn, length_skipn. lia.
Qed.

Lemma scan_to_nul_terminated (chars rest : list byte) :
  Forall (fun b => b <> x00) chars ->
  scan_to_nul (chars ++ x00 :: rest) = Some (N.of_nat (List.length chars)).
Proof.
  induction 1 as [|b chars Hb _ IH].
  - reflexivity.
  - cbn [app scan_to_nul List.length].
    destruct (Byte.eqb b x00) eqn:E.
    + apply Byte.byte_dec_bl in E. contradiction.
    + rewrite IH. cbn [option_map]. f_equal. lia.
Qed.

(** A scan that stops never counts a zero byte. *)
Lemma scan_to_nul_sound (bs : list byte) (n : size_t) :
  scan_to_nul bs = Some n ->
  Forall (fun b => b <> x00) (firstn (N.to_nat n) bs)
  /\ nth_error bs (N.to_nat n) = Some x00.
Proof.
  revert n. induction bs as [|b bs IH]; intros n; cbn [scan_to_nul].
  - discriminate.
  - destruct (Byte.eqb b x00) eqn:E.
    + intros E'. inversion E'. subst n. apply Byte.byte_dec_bl in E. subst b.
      split; [constructor | reflexivity].
    + destruct (scan_to_nul bs) as [k|]; cbn [option_map]; [|discriminate].
      intros E'. inversion E'. subst n.
      destruct (IH k eq_refl) as [F Z0].
      rewrite N2Nat.inj_succ. cbn [firstn nth_error].
      split; [constructor; [now apply Byte.eqb_false | exact F] | exact Z0].
Qed.

(** ** Generic lookups *)

Section GenericLookups.
Context {St : Type} `{Engine St}.

(** What [dbi_get] and [cursor_get] add to the history, however they leave. *)
Lemma dbi_get_calls (txn : ptr) (dbi : MDB_dbi) (key data : MDB_val) (w : World St) :
  calls (snd (dbi_get txn dbi key data w)) = calls w ++ [Call_get txn dbi key data].
Proof.
  unfold dbi_get, bind, foreign.
  destruct (mdb_get txn dbi key data (state w)) as [[rc data'] st']. simpl.
  destruct (negb (Z.eqb rc MDB_SUCCESS) && negb (Z.eqb rc MDB_NOTFOUND)).
  - destruct (raise_throws (A:=bool * MDB_val) "mdb_get" rc
                (record_call (Call_get txn dbi key data) st' w)) as (c & -> & _).
    reflexivity.
  - reflexivity.
Qed.

Lemma cursor_get_calls (cursor : ptr) (key : MDB_val) (data : option MDB_val)
      (op : MDB_cursor_op) (w : World St) :
  calls (snd (cursor_get cursor key data op w))
  = calls w ++ [Call_cursor_get cursor key data op].
Proof.
  unfold cursor_get, bind, foreign.
  destruct (mdb_cursor_get cursor key data op (state w)) as [[[rc key'] data'] st'].
  simpl.
  destruct (negb (Z.eqb rc MDB_SUCCESS) && negb (Z.eqb rc MDB_NOTFOUND)).
  - destruct (raise_throws (A:=bool * (MDB_val * option MDB_val)) "mdb_cursor_get" rc
                (record_call (Call_cursor_get cursor key data op) st' w))
      as (c & -> & _).
    reflexivity.
  - reflexivity.
Qed.

(** The two ways [dbi_get] returns. *)
Lemma dbi_get_found (txn : ptr) (dbi : MDB_dbi) (key data : MDB_val) (w : World St) :
  fst (fst (mdb_get txn dbi key data (state w))) = MDB_SUCCESS ->
  dbi_get txn dbi key data w =
  (Returns (true, snd (fst (mdb_get txn dbi key data (state w)))),
   record_call (Call_get txn dbi key data)
               (snd (mdb_get txn dbi key data (state w))) w).
Proof.
  unfold dbi_get, bind, foreign.
  destruct (mdb_get txn dbi key data (state w)) as [[rc data'] st']. simpl.
  intros ->. reflexivity.
Qed.

Lemma dbi_get_absent (txn : ptr) (dbi : MDB_dbi) (key data : MDB_val) (w : World St) :
  fst (fst (mdb_get txn dbi key data (state w))) = MDB_NOTFOUND ->
  dbi_get txn dbi key data w =
  (Returns (false, snd (fst (mdb_get txn dbi key data (state w)))),
   record_call (Call_get txn dbi key data)
               (snd (mdb_get txn dbi key data (state w))) w).
Proof.
  unfold dbi_get, bind, foreign.
  destruct (mdb_get txn dbi key data (state w)) as [[rc data'] st']. simpl.
  intros ->. reflexivity.
Qed.

Lemma dbi_handle_run (d : dbi.t) (w : World St) :
  dbi.handle (d, w) = (Returns (dbi._handle d), (d, w)).
Proof. reflexivity. Qed.

Lemma cursor_handle_run (c : cursor.t) (w : World St) :
  cursor.handle (c, w) = (Returns (cursor._handle c), (c, w)).
Proof. reflexivity. Qed.

Lemma bind_ret_state {S A B} (m : M S A) (f : A -> B) (s : S) :
  snd (bind m (fun a => ret (f a)) s) = snd (m s).
Proof. unfold bind, ret. now destruct (m s) as [[a | e | ] s']. Qed.

Lemma last_key_snoc (cs : list Call) (c : Call) :
  last_key (cs ++ [c]) = key_of_call c.
Proof. unfold last_key. now rewrite rev_app_distr. Qed.

(** The calls that [dbi::get(txn, k)] and [cursor::find(k)] add to the
    history, and the bytes the engine reads as their key. *)
Lemma dbi_get_key_calls (K : Type) (L : Layout K) (a : ptr) (txn : ptr)
      (d : dbi.t) (w : World St) :
  calls (snd (snd (dbi.get (K:=K) txn a (d, w))))
  = calls w ++ [Call_get txn (dbi._handle d) (mk_MDB_val (sizeof (T:=K)) a)
                         MDB_val_zero].
Proof.
  unfold dbi.get. cbv zeta.
  rewrite (bind_returns _ _ _ (dbi_handle_run d w)).
  rewrite bind_ret_state, lift_run. simpl. apply dbi_get_calls.
Qed.

Lemma cursor_find_key_calls (K : Type) (L : Layout K) (a : ptr)
      (c : cursor.t) (w : World St) :
  calls (snd (snd (cursor.find (K:=K) a (c, w))))
  = calls w ++ [Call_cursor_get (cursor._handle c) (mk_MDB_val (sizeof (T:=K)) a)
                                (Some MDB_val_zero) MDB_SET].
Proof.
  unfold cursor.find, cursor.get. cbv zeta.
  rewrite bind_ret_state.
  rewrite (bind_returns _ _ _ (cursor_handle_run c w)).
  rewrite lift_run. simpl. apply cursor_get_calls.
Qed.

Lemma dbi_get_key_bytes (K : Type) (L : Layout K) (a : ptr) (txn : ptr)
      (d : dbi.t) (w : World St) :
  key_bytes_passed (heap (state w)) (calls (snd (snd (dbi.get (K:=K) txn a (d, w)))))
  = load_bytes (heap (state w)) a (sizeof (T:=K)).
Proof.
  rewrite dbi_get_key_calls. unfold key_bytes_passed. now rewrite last_key_snoc.
Qed.

Lemma cursor_find_key_bytes (K : Type) (L : Layout K) (a : ptr)
      (c : cursor.t) (w : World St) :
  key_bytes_passed (heap (state w)) (calls (snd (snd (cursor.find (K:=K) a (c, w)))))
  = load_bytes (heap (state w)) a (sizeof (T:=K)).
Proof.
  rewrite cursor_find_key_calls. unfold key_bytes_passed. now rewrite last_key_snoc.
Qed.

(** C7 (amended): the key that [dbi::get(txn, k)] and [cursor::find(k)] pass
    to the engine is the view [(sizeof(K), &k)]: one engine call is made,
    with that view as its key, and the bytes the engine reads as the key are
    the [sizeof(K)] bytes that lie at the address of [k] when the call is
    made, whatever they are.  Two lookups therefore pass the same bytes
    exactly when the bytes stored at the two addresses are the same.  Where
    the object at the address holds the representation that the value
    determines ([stored_at]), the bytes passed are that representation, the
    same on every call for the same value. *)
Theorem lookup_key_is_bytes_at_address :
  forall (K : Type) (L : Layout K) (a : ptr)
         (txn : ptr) (d : dbi.t) (c : cursor.t) (w : World St),
    let key := mk_MDB_val (sizeof (T:=K)) a in
    let after_get := calls (snd (snd (dbi.get (K:=K) txn a (d, w)))) in
    let after_find := calls (snd (snd (cursor.find (K:=K) a (c, w)))) in
    after_get = calls w ++ [Call_get txn (dbi._handle d) key MDB_val_zero]
    /\ after_find
       = calls w ++ [Call_cursor_get (cursor._handle c) key (Some MDB_val_zero) MDB_SET]
    /\ key_bytes_passed (heap (state w)) after_get
       = load_bytes (heap (state w)) a (sizeof (T:=K))
    /\ key_bytes_passed (heap (state w)) after_find
       = load_bytes (heap (state w)) a (sizeof (T:=K))
    /\ (forall k : K,
           stored_at (heap (state w)) a k ->
           key_bytes_passed (heap (state w)) after_get = Some (object_bytes k)
           /\ key_bytes_passed (heap (state w)) after_find = Some (object_bytes k))
    /\ (forall (txn2 : ptr) (d2 : dbi.t) (c2 : cursor.t) (w2 : World St) (a2 : ptr),
           let after_get2 := calls (snd (snd (dbi.get (K:=K) txn2 a2 (d2, w2)))) in
           let after_find2 := calls (snd (snd (cursor.find (K:=K) a2 (c2, w2)))) in
           (key_bytes_passed (heap (state w2)) after_get2
            = key_bytes_passed (heap (state w)) after_get
            <-> load_bytes (heap (state w2)) a2 (sizeof (T:=K))
                = load_bytes (heap (state w)) a (sizeof (T:=K)))
           /\ (key_bytes_passed (heap (state w2)) after_find2
               = key_bytes_passed (heap (state w)) after_find
               <-> load_bytes (heap (state w2)) a2 (sizeof (T:=K))
                   = load_bytes (heap (state w)) a (sizeof (T:=K)))
           /\ (forall k : K,
                  stored_at (heap (state w)) a k ->
                  stored_at (heap (state w2)) a2 k ->
                  key_bytes_passed (heap (state w2)) after_get2
                  = key_bytes_passed (heap (state w)) after_get
                  /\ key_bytes_passed (heap (state w2)) after_find2
                     = key_bytes_passed (heap (state w)) after_find)).
Proof.
  intros K L a txn d c w. cbv zeta.
  split; [apply dbi_get_key_calls|].
  split; [apply cursor_find_key_calls|].
  split; [apply dbi_get_key_bytes|].
  split; [apply cursor_find_key_bytes|].
  split.
  - intros k Hk. rewrite dbi_get_key_bytes, cursor_find_key_bytes.
    unfold stored_at in Hk. now split.
  - intros txn2 d2 c2 w2 a2.
    rewrite !dbi_get_key_bytes, !cursor_find_key_bytes.
    split; [reflexivity|]. split; [reflexivity|].
    intros k Hk Hk2. unfold stored_at in Hk, Hk2. rewrite Hk, Hk2. now split.
Qed.

(** [dbi::get(txn, k, v)] when the engine reports success: the outcome is
    determined by the [sizeof(V)] bytes at the returned [mv_data]. *)
Lemma get_kv_found (K V : Type) (LK : Layout K) (LV : Layout V)
      (txn : ptr) (a : ptr) (v : V) (d : dbi.t) (w : World St) :
  let reply := mdb_get txn (dbi._handle d) (mk_MDB_val (sizeof (T:=K)) a)
                       MDB_val_zero (state w) in
  fst (fst reply) = MDB_SUCCESS ->
  fst (dbi.get_kv (K:=K) (V:=V) txn a v (d, w)) =
  match load_bytes (heap (snd reply)) (mv_data (snd (fst reply))) (sizeof (T:=V)) with
  | Some bs => Returns (true, from_bytes bs)
  | None => Undefined
  end.
Proof.
  cbv zeta. intros E.
  unfold dbi.get_kv. cbv zeta.
  rewrite (bind_returns _ _ _ (dbi_handle_run d w)).
  pose proof (lift_run (O:=dbi.t)
                (dbi_get txn (dbi._handle d) (mk_MDB_val (sizeof (T:=K)) a)
                         MDB_val_zero) d w) as L.
  rewrite (dbi_get_found _ _ _ _ _ E) in L. simpl in L.
  rewrite (bind_returns _ _ _ L).
  unfold bind, lift, load. simpl.
  now destruct (load_bytes _ _ _).
Qed.

(** C8: [dbi::get(txn, k, v)].  When the engine reports [MDB_NOTFOUND] the
    call returns [false] and [v] is as the caller passed it.  When it
    reports [MDB_SUCCESS] the call reads [sizeof(V)] bytes at the
    [mv_data] of the view the engine filled in and returns [true] with [v]
    made of those bytes; where [sizeof(V)] bytes cannot be read at that
    address the behaviour is undefined.  The [mv_size] of that view plays no
    part: two successful lookups whose views agree on [mv_data], over the
    same memory, have the same outcome whatever lengths the engine
    reported. *)
Theorem get_kv_reads_sizeof_bytes :
  forall (K V : Type) (LK : Layout K) (LV : Layout V)
         (txn : ptr) (a : ptr) (v : V) (d : dbi.t) (w : World St),
    let key := mk_MDB_val (sizeof (T:=K)) a in
    let reply := mdb_get txn (dbi._handle d) key MDB_val_zero (state w) in
    let rc := fst (fst reply) in
    let val' := snd (fst reply) in
    let r := dbi.get_kv (K:=K) (V:=V) txn a v (d, w) in
    (rc = MDB_NOTFOUND -> fst r = Returns (false, v))
    /\ (rc = MDB_SUCCESS ->
        forall bs,
          load_bytes (heap (snd reply)) (mv_data val') (sizeof (T:=V)) = Some bs ->
          fst r = Returns (true, from_bytes bs)
          /\ N.of_nat (List.length bs) = sizeof (T:=V))
    /\ (rc = MDB_SUCCESS ->
        load_bytes (heap (snd reply)) (mv_data val') (sizeof (T:=V)) = None ->
        fst r = Undefined)
    /\ (forall (w2 : World St),
           let reply2 := mdb_get txn (dbi._handle d) key MDB_val_zero (state w2) in
           rc = MDB_SUCCESS ->
           fst (fst reply2) = MDB_SUCCESS ->
           mv_data (snd (fst reply2)) = mv_data val' ->
           heap (snd reply2) = heap (snd reply) ->
           fst (dbi.get_kv (K:=K) (V:=V) txn a v (d, w2)) = fst r).
Proof.
  intros K V LK LV txn a v d w. cbv zeta.
  split; [|split; [|split]].
  - intros E. unfold dbi.get_kv. cbv zeta.
    rewrite (bind_returns _ _ _ (dbi_handle_run d w)).
    pose proof (lift_run (O:=dbi.t)
                  (dbi_get txn (dbi._handle d) (mk_MDB_val (sizeof (T:=K)) a)
                           MDB_val_zero) d w) as L.
    rewrite (dbi_get_absent _ _ _ _ _ E) in L. simpl in L.
    rewrite (bind_returns _ _ _ L). reflexivity.
  - intros E bs Hbs.
    rewrite (get_kv_found LK LV txn a v d w E), Hbs.
    split; [reflexivity|].
    apply load_bytes_length in Hbs. rewrite Hbs. apply N2Nat.id.
  - intros E Hbs. now rewrite (get_kv_found LK LV txn a v d w E), Hbs.
  - intros w2 E E2 Hd Hh.
    rewrite (get_kv_found LK LV txn a v d w E), (get_kv_found LK LV txn a v d w2 E2).
    now rewrite Hd, Hh.
Qed.

End GenericLookups.

(** With [sizeof(V) = 4] and a stored value of one byte at address 8, the
    call copies the four bytes at addresses 8 to 11. *)
Example get_kv_reads_past_short_value :
  fst (dbi.get_kv (K:=byte) (V:=char4) 4096%N 5%N (mk_char4 x00 x00 x00 x00)
         (dbi.mk 1%N, sample_world MDB_SUCCESS (mk_MDB_val 1%N 8%N)))
  = Returns (true, mk_char4 x07 xaa xbb xcc).
Proof. reflexivity. Qed.

(** With a stored value at address 14, two bytes before the end of memory,
    the four-byte read leaves the store. *)
Example get_kv_reads_out_of_bounds :
  fst (dbi.get_kv (K:=byte) (V:=char4) 4096%N 5%N (mk_char4 x00 x00 x00 x00)
         (dbi.mk 1%N, sample_world MDB_SUCCESS (mk_MDB_val 2%N 14%N)))
  = Undefined.
Proof. reflexivity. Qed.

(** C7, as stated, fails for a key type with padding: the same key, looked
    up from two objects, reaches the engine as different bytes.  The objects
    at addresses 4 and 8 of [padded_memory] both hold the value (tag [01], id
    [1234]); [dbi::get] and [cursor::find] pass all four bytes found at the
    address, the padding byte included, and these are [01 00 34 12] for one
    object and [01 ff 34 12] for the other. *)
Lemma same_key_reaches_engine_as_different_bytes :
  holds (heap (state padded_world)) 4%N (mk_tagged x01 x34 x12)
  /\ holds (heap (state padded_world)) 8%N (mk_tagged x01 x34 x12)
  /\ key_bytes_passed padded_memory
       (calls (snd (snd (dbi.get (K:=tagged) 4096%N 4%N (dbi.mk 1%N, padded_world)))))
     = Some [x01; x00; x34; x12]
  /\ key_bytes_passed padded_memory
       (calls (snd (snd (dbi.get (K:=tagged) 4096%N 8%N (dbi.mk 1%N, padded_world)))))
     = Some [x01; xff; x34; x12]
  /\ key_bytes_passed padded_memory
       (calls (snd (snd (cursor.find (K:=tagged) 4%N (cursor.mk 9%N, padded_world)))))
     = Some [x01; x00; x34; x12]
  /\ key_bytes_passed padded_memory
       (calls (snd (snd (cursor.find (K:=tagged) 8%N (cursor.mk 9%N, padded_world)))))
     = Some [x01; xff; x34; x12]
  /\ key_bytes_passed padded_memory
       (calls (snd (snd (dbi.get (K:=tagged) 4096%N 4%N (dbi.mk 1%N, padded_world)))))
     <> key_bytes_passed padded_memory
          (calls (snd (snd (dbi.get (K:=tagged) 4096%N 8%N (dbi.mk 1%N, padded_world))))).
Proof.
  split; [eexists; split; reflexivity|].
  split; [eexists; split; reflexivity|].
  split; [reflexivity|]. split; [reflexivity|].
  split; [reflexivity|]. split; [reflexivity|].
  discriminate.
Qed.

(** ** Byte views *)

Section Views.
Context {St : Type} `{Engine St}.

(** C10: a view built from a null-terminated string at address [s] has as
    length the number of bytes before the terminator and as data pointer
    [s] itself; nothing is copied (the world is as before).  A view built
    from a pointer and a length holds that pointer and that length. *)
Theorem val_of_c_string :
  forall (s : ptr) (chars : list byte) (w : World St) (p : ptr) (n : size_t),
    c_string_at (heap (state w)) s chars ->
    val.from_c_str s w
    = (Returns (val.mk (mk_MDB_val (N.of_nat (List.length chars)) s)), w)
    /\ mv_data (val.to_MDB_val (val.from_data_size p n)) = p
    /\ mv_size (val.to_MDB_val (val.from_data_size p n)) = n.
Proof.
  intros s chars w p n (Hs & Hchars & rest & Hmem).
  split; [|split; reflexivity].
  unfold val.from_c_str, strlen.
  apply N.eqb_neq in Hs. rewrite Hs, Hmem.
  now rewrite (scan_to_nul_terminated rest Hchars).
Qed.

End Views.

(** C10, at a concrete input: the string "key" at address 1. *)
Lemma val_of_c_string_witness :
  c_string_at sample_memory 1%N [x6b; x65; x79]
  /\ val.from_c_str 1%N (sample_world MDB_SUCCESS MDB_val_zero)
     = (Returns (val.mk (mk_MDB_val 3%N 1%N)), sample_world MDB_SUCCESS MDB_val_zero)
  /\ val.to_MDB_val (val.from_data_size 12%N 4%N) = mk_MDB_val 4%N 12%N.
Proof.
  assert (Hs : c_string_at (heap (state (sample_world MDB_SUCCESS MDB_val_zero)))
                           1%N [x6b; x65; x79]).
  { split; [discriminate|]. split.
    - repeat constructor; discriminate.
    - eexists. reflexivity. }
  split; [exact Hs|].
  destruct (@val_of_c_string Script scripted_engine 1%N [x6b; x65; x79]
              (sample_world MDB_SUCCESS MDB_val_zero) 12%N 4%N Hs) as (E & _ & _).
  split; [exact E | reflexivity].
Defined.

(** Without a terminator before the end of memory the scan has no result. *)
Example val_of_unterminated_string :
  fst (val.from_c_str 12%N (sample_world MDB_SUCCESS MDB_val_zero)) = Undefined.
Proof. reflexivity. Qed.

(** * Properties of the rest of the header *)

(** ** Handlers *)

(** X1: which handlers catch what [lmdb::error::raise] throws.  A handler
    for [std::runtime_error] or for [lmdb::error] catches it for every status
    code, a handler for [lmdb::logic_error] for none.  A handler for
    [lmdb::fatal_error] catches it exactly for [MDB_CORRUPTED] and
    [MDB_PANIC], a handler for [lmdb::runtime_error] exactly for all other
    codes; handlers for [key_exist_error] and [not_found_error] catch it
    exactly for [MDB_KEYEXIST] and [MDB_NOTFOUND]. *)
Theorem raise_reaches_handlers :
  forall (S A : Type) (origin : string) (rc : Z) (s : S),
  exists e,
    fst (error.raise (A:=A) origin rc s) = Throws e
    /\ caught_by (dynamic_class e) std_runtime_error = true
    /\ caught_by (dynamic_class e) lmdb_error = true
    /\ caught_by (dynamic_class e) logic_error = false
    /\ (caught_by (dynamic_class e) fatal_error = true
        <-> rc = MDB_CORRUPTED \/ rc = MDB_PANIC)
    /\ (caught_by (dynamic_class e) runtime_error = true
        <-> rc <> MDB_CORRUPTED /\ rc <> MDB_PANIC)
    /\ (caught_by (dynamic_class e) key_exist_error = true <-> rc = MDB_KEYEXIST)
    /\ (caught_by (dynamic_class e) not_found_error = true <-> rc = MDB_NOTFOUND).
Proof.
  intros S A origin rc s.
  destruct (raise_throws (A:=A) origin rc s) as (c & E & K1 & K2 & K3 & K4 & K5).
  exists (mk_exception c origin rc). rewrite E. cbn [fst dynamic_class].
  split; [reflexivity|].
  destruct (Z.eq_dec rc MDB_KEYEXIST) as [e1|n1].
  { rewrite (K1 e1). subst rc. cbv [caught_by derives_within exn_class_eqb base_class orb].
    repeat split; intros; try discriminate; try reflexivity;
      try (destruct H as [H|H]; discriminate H); auto. }
  destruct (Z.eq_dec rc MDB_NOTFOUND) as [e2|n2].
  { rewrite (K2 e2). subst rc. cbv [caught_by derives_within exn_class_eqb base_class orb].
    repeat split; intros; try discriminate; try reflexivity;
      try (destruct H as [H|H]; discriminate H); auto. }
  destruct (Z.eq_dec rc MDB_CORRUPTED) as [e3|n3].
  { rewrite (K3 e3). subst rc. cbv [caught_by derives_within exn_class_eqb base_class orb].
    repeat split; intros; try discriminate; try reflexivity; auto.
    destruct H as [H _]. now contradiction H. }
  destruct (Z.eq_dec rc MDB_PANIC) as [e4|n4].
  { rewrite (K4 e4). subst rc. cbv [caught_by derives_within exn_class_eqb base_class orb].
    repeat split; intros; try discriminate; try reflexivity; auto.
    destruct H as [_ H]. now contradiction H. }
  rewrite (K5 n1 n2 n3 n4). cbv [caught_by derives_within exn_class_eqb base_class orb].
  repeat split; intros; try discriminate; try reflexivity; try contradiction; auto.
  destruct H as [H|H]; contradiction.
Qed.

(** ** Status codes through the procedural interface *)

Section Propagation.
Context {St : Type} `{EngineMore St}.

(** The shape shared by the wrappers of calls that fill an out-parameter. *)
Lemma propagates_value {A} (name : string) (f : St -> Z * A * St) (w : World St) :
  propagates name w (fst (fst (f (state w)))) (snd (fst (f (state w))))
             (snd (f (state w)))
             ((r <- crossing f ;;
               let (rc, v) := r in
               if negb (Z.eqb rc MDB_SUCCESS) then error.raise name rc else ret v) w).
Proof.
  unfold propagates, bind, crossing.
  destruct (f (state w)) as [[rc v] st']. cbn [fst snd].
  destruct (Z.eqb_spec rc MDB_SUCCESS) as [Hz|Hn]; cbn [negb].
  - subst rc. unfold ret, returns_normally. cbn [fst snd].
    split; [reflexivity|]. split; [reflexivity|].
    split; [intros Hc; now contradiction Hc|].
    split; [reflexivity | intros _; eexists; reflexivity].
  - destruct (raise_throws (A:=A) name rc (mk_World st' (calls w))) as (c & R & _).
    rewrite R. unfold returns_normally. cbn [fst snd].
    split; [reflexivity|]. split; [intros Hc; contradiction|]. split.
    + intros _. eexists. split; [reflexivity|]. cbn [code origin dynamic_class].
      split; [reflexivity|]. split; [reflexivity|].
      apply (raise_is_lmdb_error (A:=A) name rc (mk_World st' (calls w))
               (e:=mk_exception c name rc)).
      now rewrite R.
    + split; [intros [a Ha]; discriminate Ha | intros Hc; contradiction].
Qed.

(** The shape shared by the wrappers of calls that return a status only. *)
Lemma propagates_status (name : string) (f : St -> Z * St) (w : World St) :
  propagates name w (fst (f (state w))) tt (snd (f (state w)))
             ((rc <- crossing f ;;
               if negb (Z.eqb rc MDB_SUCCESS) then error.raise name rc else ret tt) w).
Proof.
  unfold propagates, bind, crossing.
  destruct (f (state w)) as [rc st']. cbn [fst snd].
  destruct (Z.eqb_spec rc MDB_SUCCESS) as [Hz|Hn]; cbn [negb].
  - subst rc. unfold ret, returns_normally. cbn [fst snd].
    split; [reflexivity|]. split; [reflexivity|].
    split; [intros Hc; now contradiction Hc|].
    split; [reflexivity | intros _; eexists; reflexivity].
  - destruct (raise_throws (A:=unit) name rc (mk_World st' (calls w))) as (c & R & _).
    rewrite R. unfold returns_normally. cbn [fst snd].
    split; [reflexivity|]. split; [intros Hc; contradiction|]. split.
    + intros _. eexists. split; [reflexivity|]. cbn [code origin dynamic_class].
      split; [reflexivity|]. split; [reflexivity|].
      apply (raise_is_lmdb_error (A:=unit) name rc (mk_World st' (calls w))
               (e:=mk_exception c name rc)).
      now rewrite R.
    + split; [intros [a Ha]; discriminate Ha | intros Hc; contradiction].
Qed.

(** X2: no wrapper of the procedural interface swallows a status code.
    Each of [env_create], [env_open], [env_sync], [env_set_flags],
    [env_set_map_size], [env_set_max_readers], [env_set_max_dbs],
    [txn_begin], [txn_renew], [dbi_open], [dbi_flags], [cursor_open],
    [cursor_renew], [cursor_put], [cursor_del] and [cursor_count] makes its
    one engine call with the arguments it was given, returns (with the
    content the engine left in the out-parameter, where there is one)
    exactly when the engine reports [MDB_SUCCESS], and otherwise throws an
    [lmdb::error] that carries the engine's status code and the name of the
    engine function; the process state is the one the engine left in either
    case.  [env_set_flags] passes 1 or 0 for [onoff] and [env_sync] passes
    [force] as an [int]. *)
Theorem wrappers_propagate_status :
  forall (w : World St) (env txn parent cursor path name out : ptr)
         (flags mode count : N) (size : size_t) (dbi : MDB_dbi)
         (force onoff : bool) (key data : MDB_val),
    (let q := mdb_env_create out (state w) in
     propagates "mdb_env_create" w (fst (fst q)) (snd (fst q)) (snd q)
                (env_create out w))
    /\ (let q := mdb_env_open env path flags mode (state w) in
        propagates "mdb_env_open" w (fst q) tt (snd q)
                   (env_open env path flags mode w))
    /\ (let q := mdb_env_sync env (if force then 1 else 0)%Z (state w) in
        propagates "mdb_env_sync" w (fst q) tt (snd q) (env_sync env force w))
    /\ (let q := mdb_env_set_flags env flags (if onoff then 1 else 0)%Z (state w) in
        propagates "mdb_env_set_flags" w (fst q) tt (snd q)
                   (env_set_flags env flags onoff w))
    /\ (let q := mdb_env_set_mapsize env size (state w) in
        propagates "mdb_env_set_mapsize" w (fst q) tt (snd q)
                   (env_set_map_size env size w))
    /\ (let q := mdb_env_set_maxreaders env count (state w) in
        propagates "mdb_env_set_maxreaders" w (fst q) tt (snd q)
                   (env_set_max_readers env count w))
    /\ (let q := mdb_env_set_maxdbs env dbi (state w) in
        propagates "mdb_env_set_maxdbs" w (fst q) tt (snd q)
                   (env_set_max_dbs env dbi w))
    /\ (let q := mdb_txn_begin env parent flags out (state w) in
        propagates "mdb_txn_begin" w (fst (fst q)) (snd (fst q)) (snd q)
                   (txn_begin env parent flags out w))
    /\ (let q := mdb_txn_renew txn (state w) in
        propagates "mdb_txn_renew" w (fst q) tt (snd q) (txn_renew txn w))
    /\ (let q := mdb_dbi_open txn name flags dbi (state w) in
        propagates "mdb_dbi_open" w (fst (fst q)) (snd (fst q)) (snd q)
                   (dbi_open txn name flags dbi w))
    /\ (let q := mdb_dbi_flags txn dbi flags (state w) in
        propagates "mdb_dbi_flags" w (fst (fst q)) (snd (fst q)) (snd q)
                   (dbi_flags txn dbi flags w))
    /\ (let q := mdb_cursor_open txn dbi out (state w) in
        propagates "mdb_cursor_open" w (fst (fst q)) (snd (fst q)) (snd q)
                   (cursor_open txn dbi out w))
    /\ (let q := mdb_cursor_renew txn cursor (state w) in
        propagates "mdb_cursor_renew" w (fst q) tt (snd q)
                   (cursor_renew txn cursor w))
    /\ (let q := mdb_cursor_put cursor key data flags (state w) in
        propagates "mdb_cursor_put" w (fst (fst q)) (snd (fst q)) (snd q)
                   (cursor_put cursor key data flags w))
    /\ (let q := mdb_cursor_del cursor flags (state w) in
        propagates "mdb_cursor_del" w (fst q) tt (snd q)
                   (cursor_del cursor flags w))
    /\ (let q := mdb_cursor_count cursor size (state w) in
        propagates "mdb_cursor_count" w (fst (fst q)) (snd (fst q)) (snd q)
                   (cursor_count cursor size w)).
Proof.
  intros. cbv zeta.
  repeat match goal with |- _ /\ _ => split end;
    first [ apply propagates_value | apply propagates_status ].
Qed.

End Propagation.

Lemma propagates_returns {St A} (name : string) (w : World St) (rc : Z) (v : A)
      (st' : St) (r : Outcome A * World St) :
  propagates name w rc v st' r -> rc = MDB_SUCCESS ->
  r = (Returns v, mk_World st' (calls w)).
Proof.
  intros (Hs & Hr & _) Hz. destruct r as [o w']. cbn [fst snd] in *.
  now rewrite (Hr Hz), Hs.
Qed.

Lemma propagates_throws {St A} (name : string) (w : World St) (rc : Z) (v : A)
      (st' : St) (r : Outcome A * World St) :
  propagates name w rc v st' r -> rc <> MDB_SUCCESS ->
  exists e, r = (Throws e, mk_World st' (calls w))
            /\ code e = rc /\ origin e = name
            /\ caught_by (dynamic_class e) lmdb_error = true.
Proof.
  intros (Hs & _ & Ht & _) Hn. destruct r as [o w']. cbn [fst snd] in *.
  destruct (Ht Hn) as (e & -> & Hc & Ho & Hk). exists e. now rewrite Hs.
Qed.

Lemma bind_ret_l {S A B} (a : A) (k : A -> M S B) (s : S) :
  bind (ret a) k s = k a s.
Proof. reflexivity. Qed.

Lemma try_catch_returns {S A} (m : M S A) (c : exn_class)
      (handler : exception -> M S A) s a s' :
  m s = (Returns a, s') -> try_catch m c handler s = (Returns a, s').
Proof. intros R. unfold try_catch. now rewrite R. Qed.

Lemma try_catch_caught {S A} (m : M S A) (c : exn_class)
      (handler : exception -> M S A) s e s' :
  m s = (Throws e, s') -> caught_by (dynamic_class e) c = true ->
  try_catch m c handler s = handler e s'.
Proof. intros R K. unfold try_catch. now rewrite R, K. Qed.

(** ** Environments *)

Section Environments.
Context {St : Type} `{EngineMore St}.

(** What [return env{handle};] does to the world: nothing when the copy is
    elided, and otherwise the release of the handle, by the destructor of
    the temporary, while the returned object keeps the handle. *)
Lemma return_temporary_env (elide : bool) (h : ptr) (w : World St) :
  h <> nullptr ->
  return_temporary elide env.destructor (env.mk h) w
  = (Returns (env.mk h),
     if elide then w
     else mk_World (mdb_env_close h (state w)) (calls w ++ [Call_env_close h])).
Proof.
  intros Hh. destruct elide; [reflexivity|].
  unfold return_temporary, env.destructor, catch_all.
  now rewrite (env_close_open (env.mk h) w Hh).
Qed.

Lemma return_temporary_value {O W} (elide : bool) (destructor : M (O * W) unit)
      (t x : O) (w w1 : W) :
  return_temporary elide destructor t w = (Returns x, w1) -> x = t.
Proof.
  unfold return_temporary. destruct elide.
  - unfold ret. intros R. now inversion R.
  - destruct (destructor (t, w)) as [[u | e | ] [o w']]; intros R; now inversion R.
Qed.

(** X3: the paths through [env::create].  When [mdb_env_create] fails the
    error is thrown and nothing else is called.  With nonzero [flags],
    [mdb_env_set_flags] is called on the new handle with [onoff = 1], and
    when it fails the handle is closed with [mdb_env_close] before the error
    of [mdb_env_set_flags] leaves the function: no created handle is left
    behind by a failure.  When the function returns (the new handle not
    null; [flags] zero, or [mdb_env_set_flags] successful) the value is the
    wrapper of the new handle.  With the copy of [return env{handle};]
    elided no further call is made; without elision the destructor of the
    temporary closes the handle with [mdb_env_close], and the wrapper that
    is returned holds a handle that has already been released. *)
Theorem create_paths :
  forall (NDEBUG elide : bool) (flags : N) (w : World St),
    let c := mdb_env_create nullptr (state w) in
    let rc := fst (fst c) in
    let h := snd (fst c) in
    let f := mdb_env_set_flags h flags 1%Z (snd c) in
    let r := Env.create NDEBUG elide flags w in
    (rc <> MDB_SUCCESS ->
     (exists e, fst r = Throws e /\ code e = rc /\ origin e = "mdb_env_create")
     /\ snd r = mk_World (snd c) (calls w))
    /\ (rc = MDB_SUCCESS -> h <> nullptr -> flags = 0%N ->
        r = (Returns (env.mk h),
             if elide then mk_World (snd c) (calls w)
             else mk_World (mdb_env_close h (snd c))
                           (calls w ++ [Call_env_close h])))
    /\ (rc = MDB_SUCCESS -> h <> nullptr -> flags <> 0%N ->
        fst f = MDB_SUCCESS ->
        r = (Returns (env.mk h),
             if elide then mk_World (snd f) (calls w)
             else mk_World (mdb_env_close h (snd f))
                           (calls w ++ [Call_env_close h])))
    /\ (rc = MDB_SUCCESS -> h <> nullptr -> flags <> 0%N ->
        fst f <> MDB_SUCCESS ->
        (exists e, fst r = Throws e /\ code e = fst f
                   /\ origin e = "mdb_env_set_flags")
        /\ snd r = mk_World (mdb_env_close h (snd f))
                            (calls w ++ [Call_env_close h])).
Proof.
  intros NDEBUG elide flags w. cbv zeta.
  pose proof (propagates_value "mdb_env_create" (mdb_env_create nullptr) w) as P.
  fold (env_create nullptr) in P.
  set (c := mdb_env_create nullptr (state w)) in *.
  split; [|split; [|split]].
  - intros Hn. destruct (propagates_throws P Hn) as (e & R & Hc & Ho & _).
    unfold Env.create. rewrite (bind_throws _ _ _ R). cbn [fst snd].
    split; [exists e; auto | reflexivity].
  - intros Hz Hh ->. unfold Env.create.
    rewrite (bind_returns _ _ _ (propagates_returns P Hz)).
    pose proof Hh as Hb. apply to_bool_true in Hb.
    unfold assert_. rewrite Hb, orb_true_r, bind_ret_l.
    rewrite N.eqb_refl. cbn [negb]. rewrite bind_ret_l.
    rewrite (return_temporary_env elide _ Hh). now destruct elide.
  - intros Hz Hh Hf Hfz. unfold Env.create.
    rewrite (bind_returns _ _ _ (propagates_returns P Hz)).
    pose proof Hh as Hb. apply to_bool_true in Hb.
    unfold assert_. rewrite Hb, orb_true_r, bind_ret_l.
    apply N.eqb_neq in Hf. rewrite Hf. cbn [negb].
    pose proof (propagates_status "mdb_env_set_flags"
                  (mdb_env_set_flags (snd (fst c)) flags 1%Z)
                  (mk_World (snd c) (calls w))) as Q.
    fold (env_set_flags (snd (fst c)) flags true) in Q.
    pose proof (propagates_returns Q Hfz) as R. cbn [state calls] in R.
    rewrite (bind_returns _ _ _ (@try_catch_returns _ _ _ _ _ _ _ _ R)).
    rewrite (return_temporary_env elide _ Hh). now destruct elide.
  - intros Hz Hh Hf Hfn. unfold Env.create.
    rewrite (bind_returns _ _ _ (propagates_returns P Hz)).
    apply to_bool_true in Hh. unfold assert_. rewrite Hh, orb_true_r, bind_ret_l.
    apply N.eqb_neq in Hf. rewrite Hf. cbn [negb].
    pose proof (propagates_status "mdb_env_set_flags"
                  (mdb_env_set_flags (snd (fst c)) flags 1%Z)
                  (mk_World (snd c) (calls w))) as Q.
    fold (env_set_flags (snd (fst c)) flags true) in Q.
    destruct (propagates_throws Q Hfn) as (e & R & Hc & Ho & Hk).
    cbn [state calls] in R, Hc.
    assert (T : try_catch (env_set_flags (snd (fst c)) flags true) lmdb_error
                  (fun e0 => (env_close (snd (fst c)) ;;; throw e0))
                  (mk_World (snd c) (calls w))
                = (Throws e,
                   mk_World (mdb_env_close (snd (fst c))
                               (snd (mdb_env_set_flags (snd (fst c)) flags 1%Z (snd c))))
                            (calls w ++ [Call_env_close (snd (fst c))])))
      by (rewrite (@try_catch_caught _ _ _ _ _ _ _ _ R Hk); reflexivity).
    rewrite (bind_throws _ _ _ T). cbn [fst snd].
    split; [exists e; auto | reflexivity].
Qed.

End Environments.

Section EnvironmentMethods.
Context {St : Type} `{EngineMore St}.

(** A method that passes the handle to a wrapper and returns [*this]. *)
Lemma env_chained_run (m : ptr -> M (World St) unit) (e : env.t) (w : World St) :
  (h <- env.handle ;; (lift (m h) ;;; this)) (e, w)
  = (match fst (m (env._handle e) w) with
     | Returns _ => Returns e
     | Throws x => Throws x
     | Undefined => Undefined
     end, (e, snd (m (env._handle e) w))).
Proof.
  assert (Hh : env.handle (e, w) = (Returns (env._handle e), (e, w))) by reflexivity.
  rewrite (bind_returns _ _ _ Hh). unfold bind. rewrite lift_run.
  now destruct (m (env._handle e) w) as [[u | x | ] w'].
Qed.

Lemma env_chained_keeps (m : ptr -> M (World St) unit) (e : env.t) (w : World St) :
  let r := (h <- env.handle ;; (lift (m h) ;;; this)) (e, w) in
  fst (snd r) = e /\ (forall x, fst r = Returns x -> x = e).
Proof.
  cbv zeta. rewrite env_chained_run. cbn [fst snd]. split; [reflexivity|].
  destruct (fst (m (env._handle e) w)); intros x Hx; now inversion Hx.
Qed.

(** X4: the configuration methods of an environment never touch its handle.
    After [sync], [open], [set_flags], [set_map_size], [set_max_readers] and
    [set_max_dbs] the wrapper holds the handle it held before, whether the
    call returned or threw, and the five that return [env&] return this
    same wrapper.  So an environment whose [open] failed is still open for
    [close()], which then releases the handle, once, in the state [open]
    left. *)
Theorem env_methods_keep_handle :
  forall (e : env.t) (w : World St) (path : ptr) (flags mode count : N)
         (size : size_t) (dbs : MDB_dbi) (force onoff : bool),
    fst (snd (Env.sync force (e, w))) = e
    /\ (fst (snd (Env.open path flags mode (e, w))) = e
        /\ forall x, fst (Env.open path flags mode (e, w)) = Returns x -> x = e)
    /\ (fst (snd (Env.set_flags flags onoff (e, w))) = e
        /\ forall x, fst (Env.set_flags flags onoff (e, w)) = Returns x -> x = e)
    /\ (fst (snd (Env.set_map_size size (e, w))) = e
        /\ forall x, fst (Env.set_map_size size (e, w)) = Returns x -> x = e)
    /\ (fst (snd (Env.set_max_readers count (e, w))) = e
        /\ forall x, fst (Env.set_max_readers count (e, w)) = Returns x -> x = e)
    /\ (fst (snd (Env.set_max_dbs dbs (e, w))) = e
        /\ forall x, fst (Env.set_max_dbs dbs (e, w)) = Returns x -> x = e)
    /\ (let r := Env.open path flags mode (e, w) in
        let st1 := snd (mdb_env_open (env._handle e) path flags mode (state w)) in
        state (snd (snd r)) = st1
        /\ (env._handle e <> nullptr ->
            env.close (snd r)
            = (Returns tt,
               (env.mk nullptr,
                mk_World (mdb_env_close (env._handle e) st1)
                         (calls w ++ [Call_env_close (env._handle e)]))))).
Proof.
  intros e w path flags mode count size dbs force onoff.
  split.
  { assert (Hh : env.handle (e, w) = (Returns (env._handle e), (e, w)))
      by reflexivity.
    unfold Env.sync. rewrite (bind_returns _ _ _ Hh). now rewrite lift_run. }
  split; [apply (env_chained_keeps (fun h => env_open h path flags mode))|].
  split; [apply (env_chained_keeps (fun h => env_set_flags h flags onoff))|].
  split; [apply (env_chained_keeps (fun h => env_set_map_size h size))|].
  split; [apply (env_chained_keeps (fun h => env_set_max_readers h count))|].
  split; [apply (env_chained_keeps (fun h => env_set_max_dbs h dbs))|].
  cbv zeta. unfold Env.open.
  rewrite (env_chained_run (fun h => env_open h path flags mode)). cbn [fst snd].
  pose proof (propagates_status "mdb_env_open"
                (mdb_env_open (env._handle e) path flags mode) w) as (Hs & _).
  fold (env_open (env._handle e) path flags mode) in Hs.
  rewrite Hs. cbn [state]. split; [reflexivity|].
  intros Hh. now rewrite (env_close_open e _ Hh).
Qed.

End EnvironmentMethods.

(** ** Factories and scope exit *)

Section Factories.
Context {St : Type} `{EngineMore St}.

(** The shape of [txn::begin] and [cursor::open]: acquire, assert, wrap. *)
Lemma factory_run {O} (NDEBUG : bool) (acquire : M (World St) ptr)
      (wrap : ptr -> O) (w : World St) :
  (handle <- acquire ;; (assert_ NDEBUG (to_bool handle) ;;; ret (wrap handle))) w
  = match acquire w with
    | (Returns h, w1) =>
        if NDEBUG || to_bool h then (Returns (wrap h), w1) else (Undefined, w1)
    | (Throws e, w1) => (Throws e, w1)
    | (Undefined, w1) => (Undefined, w1)
    end.
Proof.
  unfold bind at 1. destruct (acquire w) as [[h | e | ] w1]; try reflexivity.
  unfold assert_. now destruct (NDEBUG || to_bool h).
Qed.

(** What a wrapper of an acquiring call returns is what the engine wrote. *)
Lemma propagates_value_inv {A} (name : string) (w : World St) (rc : Z) (v : A)
      (st' : St) (r : Outcome A * World St) (x : A) (w1 : World St) :
  propagates name w rc v st' r -> r = (Returns x, w1) ->
  rc = MDB_SUCCESS /\ x = v /\ w1 = mk_World st' (calls w).
Proof.
  intros (Hs & Hr & _ & Hi) ->. cbn [fst snd] in *.
  assert (Hz : rc = MDB_SUCCESS) by (apply Hi; eexists; reflexivity).
  specialize (Hr Hz). inversion Hr. now subst.
Qed.

Lemma create_returns (elide : bool) (flags : N) (w : World St)
      (x : env.t) (w1 : World St) :
  Env.create false elide flags w = (Returns x, w1) ->
  fst (fst (mdb_env_create nullptr (state w))) = MDB_SUCCESS
  /\ env._handle x = snd (fst (mdb_env_create nullptr (state w)))
  /\ env._handle x <> nullptr.
Proof.
  pose proof (propagates_value "mdb_env_create" (mdb_env_create nullptr) w) as P.
  fold (env_create nullptr) in P.
  unfold Env.create. unfold bind at 1.
  destruct (env_create nullptr w) as [[h | e | ] w0] eqn:R; try discriminate.
  destruct (propagates_value_inv P eq_refl) as (Hz & Hh & _).
  unfold assert_. cbn [orb]. unfold bind at 1.
  destruct (to_bool h) eqn:T; [|discriminate].
  unfold ret at 1. unfold bind at 1.
  match goal with
  | |- context [(if ?b then ?m1 else ?m2) w0] =>
      destruct ((if b then m1 else m2) w0) as [[u | e | ] w2]; try discriminate
  end.
  intros E1. apply return_temporary_value in E1. subst. cbn [env._handle].
  split; [exact Hz|]. split; [reflexivity|]. now apply to_bool_true.
Qed.

(** What [return cursor{handle};] does to the world. *)
Lemma return_temporary_cursor (elide : bool) (k : ptr) (w : World St) :
  k <> nullptr ->
  return_temporary elide cursor.destructor (cursor.mk k) w
  = (Returns (cursor.mk k),
     if elide then w
     else mk_World (mdb_cursor_close k (state w)) (calls w ++ [Call_cursor_close k])).
Proof.
  intros Hk. destruct elide; [reflexivity|].
  unfold return_temporary, cursor.destructor, catch_all.
  now rewrite (cursor_close_open (cursor.mk k) w Hk).
Qed.

(** [return txn{handle};] and [return dbi{handle};]: the destructors of
    these two classes make no engine call, so the value and the world are
    the same whether the copy is elided or not.  [Txn.begin] and [Dbi.open]
    end in [ret] for this reason. *)
Lemma return_temporary_txn_dbi (elide : bool) (t : txn.t) (d : dbi.t) (w : World St) :
  return_temporary elide txn.destructor t w = ret t w
  /\ return_temporary elide Dbi.destructor d w = ret d w.
Proof.
  destruct elide; [now split|]. unfold return_temporary. split.
  - destruct t as [h]. unfold txn.destructor, bind, this, assign_this, ret.
    cbn [fst snd txn._handle]. now destruct (to_bool h).
  - destruct d as [h]. unfold Dbi.destructor, bind, this, ret.
    cbn [fst snd dbi._handle]. now destruct (negb (N.eqb h 0)).
Qed.

(** X5: with assertions on ([NDEBUG] not defined), a wrapper that comes back
    from [env::create], [txn::begin] or [cursor::open] holds the handle the
    engine wrote for a call that reported success, and this handle is not
    null.  [dbi::open] returns the wrapper of the database handle the
    engine wrote (there is no assertion, and zero is a database handle like
    any other).  [txn::begin] and [cursor::open] return exactly when the
    engine reports success with a handle that is not null.  After
    [txn::begin] and [dbi::open] the world is as the engine call left it.
    After [cursor::open] it is so when the copy of [return cursor{handle};]
    is elided; without elision the destructor of the temporary has closed
    the cursor with [mdb_cursor_close], and the wrapper that is returned
    holds the handle of a closed cursor. *)
Theorem factories_hold_engine_handle :
  forall (w : World St) (elide : bool) (flags : N) (env parent txn name : ptr)
         (dbi : MDB_dbi),
    (forall x w1,
        Env.create false elide flags w = (Returns x, w1) ->
        fst (fst (mdb_env_create nullptr (state w))) = MDB_SUCCESS
        /\ env._handle x = snd (fst (mdb_env_create nullptr (state w)))
        /\ env._handle x <> nullptr)
    /\ (let q := mdb_txn_begin env parent flags nullptr (state w) in
        forall x w1,
          Txn.begin false env parent flags w = (Returns x, w1) <->
          (fst (fst q) = MDB_SUCCESS /\ snd (fst q) <> nullptr
           /\ x = txn.mk (snd (fst q)) /\ w1 = mk_World (snd q) (calls w)))
    /\ (let q := mdb_cursor_open txn dbi nullptr (state w) in
        forall x w1,
          Cursor.open false elide txn dbi w = (Returns x, w1) <->
          (fst (fst q) = MDB_SUCCESS /\ snd (fst q) <> nullptr
           /\ x = cursor.mk (snd (fst q))
           /\ w1 = if elide then mk_World (snd q) (calls w)
                   else mk_World (mdb_cursor_close (snd (fst q)) (snd q))
                                 (calls w ++ [Call_cursor_close (snd (fst q))])))
    /\ (let q := mdb_dbi_open txn name flags 0%N (state w) in
        forall x w1,
          Dbi.open txn name flags w = (Returns x, w1) <->
          (fst (fst q) = MDB_SUCCESS
           /\ x = dbi.mk (snd (fst q)) /\ w1 = mk_World (snd q) (calls w))).
Proof.
  intros w elide flags env parent txn name dbi.
  split; [intros x w1; apply create_returns|].
  split; [|split]; cbv zeta; intros x w1.
  - pose proof (propagates_value "mdb_txn_begin"
                  (mdb_txn_begin env parent flags nullptr) w) as P.
    fold (txn_begin env parent flags nullptr) in P.
    unfold Txn.begin. rewrite factory_run. cbn [orb]. split.
    + destruct (txn_begin env parent flags nullptr w) as [[h | e | ] w0] eqn:R;
        try discriminate.
      destruct (propagates_value_inv P eq_refl) as (Hz & Hh & Hw).
      destruct (to_bool h) eqn:T; [|discriminate].
      intros E1. inversion E1. subst.
      split; [exact Hz|]. split; [now apply to_bool_true|]. now split.
    + intros (Hz & Hn & -> & ->).
      rewrite (propagates_returns P Hz).
      apply to_bool_true in Hn. now rewrite Hn.
  - pose proof (propagates_value "mdb_cursor_open"
                  (mdb_cursor_open txn dbi nullptr) w) as P.
    fold (cursor_open txn dbi nullptr) in P.
    unfold Cursor.open. unfold bind at 1. split.
    + destruct (cursor_open txn dbi nullptr w) as [[h | e | ] w0] eqn:R;
        try discriminate.
      destruct (propagates_value_inv P eq_refl) as (Hz & Hh & Hw).
      unfold assert_. cbn [orb].
      destruct (to_bool h) eqn:T; [|discriminate].
      rewrite bind_ret_l. apply to_bool_true in T.
      rewrite (return_temporary_cursor elide w0 T).
      intros E1. inversion E1. subst.
      split; [exact Hz|]. split; [exact T|]. split; [reflexivity|].
      now destruct elide.
    + intros (Hz & Hn & -> & ->).
      rewrite (propagates_returns P Hz).
      unfold assert_. cbn [orb]. pose proof Hn as Hb. apply to_bool_true in Hb.
      rewrite Hb, bind_ret_l, (return_temporary_cursor elide _ Hn).
      now destruct elide.
  - pose proof (propagates_value "mdb_dbi_open"
                  (mdb_dbi_open txn name flags 0%N) w) as P.
    fold (dbi_open txn name flags 0%N) in P.
    unfold Dbi.open, bind. split.
    + destruct (dbi_open txn name flags 0%N w) as [[h | e | ] w0] eqn:R;
        try discriminate.
      destruct (propagates_value_inv P eq_refl) as (Hz & Hh & Hw).
      unfold ret. intros E1. inversion E1. subst. now repeat split.
    + intros (Hz & -> & ->). now rewrite (propagates_returns P Hz).
Qed.

End Factories.

Section ScopeExit.
Context {St : Type} `{Engine St}.

(** X6: leaving the scope of an environment or of a cursor releases its
    handle exactly once.  The destructor never throws and does what
    [close()] does: on a wrapper whose handle is not null it makes the one
    release call on that handle and nulls it; on a wrapper that is already
    closed (by an explicit [close()], for one) it makes no engine call at
    all. *)
Theorem scope_exit_releases_once :
  forall (e : env.t) (c : cursor.t) (w : World St),
    (env.destructor (e, w) = env.close (e, w)
     /\ fst (env.destructor (e, w)) = Returns tt
     /\ (env._handle e <> nullptr ->
         snd (env.destructor (e, w))
         = (env.mk nullptr,
            mk_World (mdb_env_close (env._handle e) (state w))
                     (calls w ++ [Call_env_close (env._handle e)])))
     /\ env.destructor (snd (env.close (e, w)))
        = (Returns tt, snd (env.close (e, w))))
    /\
    (cursor.destructor (c, w) = cursor.close (c, w)
     /\ fst (cursor.destructor (c, w)) = Returns tt
     /\ (cursor._handle c <> nullptr ->
         snd (cursor.destructor (c, w))
         = (cursor.mk nullptr,
            mk_World (mdb_cursor_close (cursor._handle c) (state w))
                     (calls w ++ [Call_cursor_close (cursor._handle c)])))
     /\ cursor.destructor (snd (cursor.close (c, w)))
        = (Returns tt, snd (cursor.close (c, w)))).
Proof.
  intros [h] [k] w. split.
  - assert (D : forall s, env.destructor s = env.close s).
    { intros [[h'] w']. unfold env.destructor, catch_all.
      destruct (N.eq_dec h' nullptr) as [-> | N].
      - now rewrite env_close_closed.
      - now rewrite (env_close_open (env.mk h') w' N). }
    rewrite !D. split; [reflexivity|].
    destruct (N.eq_dec h nullptr) as [-> | N].
    + rewrite env_close_closed. cbn [fst snd env._handle].
      split; [reflexivity|]. split; [intros Hc; now contradiction Hc|].
      apply env_close_closed.
    + rewrite (env_close_open (env.mk h) w N). cbn [fst snd env._handle].
      split; [reflexivity|]. split; [reflexivity|]. apply env_close_closed.
  - assert (D : forall s, cursor.destructor s = cursor.close s).
    { intros [[k'] w']. unfold cursor.destructor, catch_all.
      destruct (N.eq_dec k' nullptr) as [-> | N].
      - now rewrite cursor_close_closed.
      - now rewrite (cursor_close_open (cursor.mk k') w' N). }
    rewrite !D. split; [reflexivity|].
    destruct (N.eq_dec k nullptr) as [-> | N].
    + rewrite cursor_close_closed. cbn [fst snd cursor._handle].
      split; [reflexivity|]. split; [intros Hc; now contradiction Hc|].
      apply cursor_close_closed.
    + rewrite (cursor_close_open (cursor.mk k) w N). cbn [fst snd cursor._handle].
      split; [reflexivity|]. split; [reflexivity|]. apply cursor_close_closed.
Qed.

End ScopeExit.

(** ** Transactions, continued *)

Section Resolution.
Context {St : Type} `{Engine St}.

(** The failing path of [txn::commit], as a run. *)
Lemma commit_failure_run (t : txn.t) (w : World St) :
  fst (mdb_txn_commit (txn._handle t) (state w)) <> MDB_SUCCESS ->
  exists e,
    txn.commit (t, w)
    = (Throws e,
       (t, record_call (Call_txn_commit (txn._handle t))
                       (snd (mdb_txn_commit (txn._handle t) (state w))) w)).
Proof.
  intros Hn.
  destruct (raise_throws (A:=unit) "mdb_txn_commit"
              (fst (mdb_txn_commit (txn._handle t) (state w)))
              (record_call (Call_txn_commit (txn._handle t))
                 (snd (mdb_txn_commit (txn._handle t) (state w))) w))
    as (c & R & _).
  eexists. unfold txn.commit.
  assert (T : this (O:=txn.t) (t, w) = (Returns t, (t, w))) by reflexivity.
  rewrite (bind_returns _ _ _ T).
  assert (L : lift (O:=txn.t) (txn_commit (txn._handle t)) (t, w)
              = (Throws (mk_exception c "mdb_txn_commit"
                           (fst (mdb_txn_commit (txn._handle t) (state w)))),
                 (t, record_call (Call_txn_commit (txn._handle t))
                       (snd (mdb_txn_commit (txn._handle t) (state w))) w))).
  { rewrite lift_run, (txn_commit_failure _ _ Hn), R. reflexivity. }
  rewrite (bind_throws _ _ _ L). reflexivity.
Qed.

(** Where [txn::commit] leaves the wrapper and the world. *)
Lemma commit_run (t : txn.t) (w : World St) :
  let q := mdb_txn_commit (txn._handle t) (state w) in
  snd (snd (txn.commit (t, w)))
  = record_call (Call_txn_commit (txn._handle t)) (snd q) w
  /\ (returns_normally (txn.commit (t, w)) ->
      fst q = MDB_SUCCESS /\ fst (snd (txn.commit (t, w))) = txn.mk nullptr)
  /\ (raises (txn.commit (t, w)) ->
      fst q <> MDB_SUCCESS /\ fst (snd (txn.commit (t, w))) = t).
Proof.
  cbv zeta.
  destruct (Z.eq_dec (fst (mdb_txn_commit (txn._handle t) (state w))) MDB_SUCCESS)
    as [Hz | Hn].
  - rewrite (commit_success t w Hz). cbn [fst snd].
    split; [reflexivity|]. split; [now intros _|].
    intros [e He]. discriminate He.
  - destruct (commit_failure_run t w Hn) as (e & ->). cbn [fst snd].
    split; [reflexivity|]. split; [|now intros _].
    intros [a Ha]. discriminate Ha.
Qed.

(** X7: [txn::commit] and [txn::abort] have no guard on the handle, unlike
    [close()].  Called on a wrapper whose handle is already null they still
    cross into the engine, with [nullptr].  After a [commit()] that returned,
    an [abort()] on the same wrapper calls [mdb_txn_abort(nullptr)].  After a
    [commit()] that threw, the wrapper still holds the handle it passed to
    [mdb_txn_commit], and an [abort()] passes that same handle to
    [mdb_txn_abort]; only then is the wrapper's handle null. *)
Theorem txn_resolution_is_unguarded :
  forall (t : txn.t) (w : World St),
    let h := txn._handle t in
    let r := txn.commit (t, w) in
    calls (snd (snd (txn.abort (txn.mk nullptr, w))))
    = calls w ++ [Call_txn_abort nullptr]
    /\ calls (snd (snd (txn.commit (txn.mk nullptr, w))))
       = calls w ++ [Call_txn_commit nullptr]
    /\ (returns_normally r ->
        calls (snd (snd (txn.abort (snd r))))
        = calls w ++ [Call_txn_commit h; Call_txn_abort nullptr])
    /\ (raises r ->
        calls (snd (snd (txn.abort (snd r))))
        = calls w ++ [Call_txn_commit h; Call_txn_abort h]
        /\ txn._handle (fst (snd (txn.abort (snd r)))) = nullptr).
Proof.
  intros t w. cbv zeta.
  split; [reflexivity|].
  split.
  { destruct (commit_run (txn.mk nullptr) w) as (Hw & _). cbv zeta in Hw.
    now rewrite Hw. }
  destruct (commit_run t w) as (Hw & Hr & Ht). cbv zeta in Hw, Hr, Ht.
  destruct (txn.commit (t, w)) as [o [t' w']] eqn:R. cbn [fst snd] in *.
  subst w'. split.
  - intros Hret. destruct (Hr Hret) as (_ & ->).
    unfold txn.abort, bind, this, assign_this, lift, txn_abort, foreign, record_call.
    cbn. now rewrite <- app_assoc.
  - intros Hthr. destruct (Ht Hthr) as (_ & ->).
    unfold txn.abort, bind, this, assign_this, lift, txn_abort, foreign, record_call.
    cbn. now rewrite <- app_assoc.
Qed.

End Resolution.

(** ** Methods that leave the wrapper alone *)

Lemma keeps_this_lift {O W A} (m : M W A) : keeps_this (O:=O) (lift m).
Proof. intros o w. now rewrite lift_run. Qed.

Lemma keeps_this_ret {O W A} (a : A) : keeps_this (O:=O) (W:=W) (ret a).
Proof. now intros o w. Qed.

Lemma keeps_this_this {O W} : keeps_this (this (O:=O) (W:=W)).
Proof. now intros o w. Qed.

Lemma keeps_this_bind {O W A B} (m : M (O * W) A) (k : A -> M (O * W) B) :
  keeps_this m -> (forall a, keeps_this (k a)) -> keeps_this (bind m k).
Proof.
  intros Hm Hk o w. unfold bind. specialize (Hm o w).
  destruct (m (o, w)) as [[a | e | ] [o' w']]; cbn [fst snd] in *; subst o'.
  - apply Hk.
  - reflexivity.
  - reflexivity.
Qed.

Section ResetRenew.
Context {St : Type} `{EngineMore St}.

(** A method that hands the handle of a transaction to a wrapper. *)
Lemma txn_method_run {A} (m : ptr -> M (World St) A) (t : txn.t) (w : World St) :
  (o <- this ;; lift (m (txn._handle o))) (t, w)
  = (fst (m (txn._handle t) w), (t, snd (m (txn._handle t) w))).
Proof.
  assert (T : this (O:=txn.t) (t, w) = (Returns t, (t, w))) by reflexivity.
  rewrite (bind_returns _ _ _ T). apply lift_run.
Qed.

(** X8: [txn::reset] and [txn::renew] never invalidate the wrapper.
    [reset()] always returns, after one [mdb_txn_reset] on the handle.
    [renew()] calls [mdb_txn_renew] on the handle and returns exactly when
    the engine reports success; whether it returns or throws, the wrapper
    holds the same handle afterwards.  Hence [reset()] followed by
    [renew()] presents the same handle to the engine twice, and [env()]
    asks the engine about that handle without changing the wrapper. *)
Theorem reset_and_renew_keep_handle :
  forall (t : txn.t) (w : World St),
    let h := txn._handle t in
    Txn.reset (t, w)
    = (Returns tt, (t, mk_World (mdb_txn_reset h (state w)) (calls w)))
    /\ (let q := mdb_txn_renew h (state w) in
        snd (Txn.renew (t, w)) = (t, mk_World (snd q) (calls w))
        /\ (returns_normally (Txn.renew (t, w)) <-> fst q = MDB_SUCCESS)
        /\ (raises (Txn.renew (t, w)) <-> fst q <> MDB_SUCCESS))
    /\ (let q := mdb_txn_renew h (mdb_txn_reset h (state w)) in
        snd ((Txn.reset ;;; Txn.renew) (t, w)) = (t, mk_World (snd q) (calls w)))
    /\ Txn.env (t, w)
       = (Returns (fst (mdb_txn_env h (state w))),
          (t, mk_World (snd (mdb_txn_env h (state w))) (calls w))).
Proof.
  intros t w. cbv zeta.
  assert (Hreset : forall w0,
             Txn.reset (t, w0)
             = (Returns tt,
                (t, mk_World (mdb_txn_reset (txn._handle t) (state w0)) (calls w0)))).
  { intros w0. unfold Txn.reset. now rewrite (txn_method_run txn_reset). }
  assert (Hrenew : forall w0,
             snd (Txn.renew (t, w0))
             = (t, mk_World (snd (mdb_txn_renew (txn._handle t) (state w0))) (calls w0))
             /\ (returns_normally (Txn.renew (t, w0))
                 <-> fst (mdb_txn_renew (txn._handle t) (state w0)) = MDB_SUCCESS)
             /\ (raises (Txn.renew (t, w0))
                 <-> fst (mdb_txn_renew (txn._handle t) (state w0)) <> MDB_SUCCESS)).
  { intros w0. unfold Txn.renew. rewrite (txn_method_run txn_renew).
    pose proof (propagates_status "mdb_txn_renew"
                  (mdb_txn_renew (txn._handle t)) w0) as P.
    fold (txn_renew (txn._handle t)) in P.
    destruct P as (Hs & Hr & Ht & Hi). unfold returns_normally, raises in *.
    cbn [fst snd] in *. rewrite Hs. split; [reflexivity|]. split; [exact Hi|].
    split.
    - intros [e He] Hz. rewrite (Hr Hz) in He. discriminate He.
    - intros Hn. destruct (Ht Hn) as (e & He & _). now exists e. }
  split; [apply Hreset|]. split; [apply Hrenew|]. split.
  - rewrite (bind_returns _ _ _ (Hreset w)).
    destruct (Hrenew (mk_World (mdb_txn_reset (txn._handle t) (state w)) (calls w)))
      as (Hs & _).
    exact Hs.
  - unfold Txn.env.
    assert (Hh : txn.handle (t, w) = (Returns (txn._handle t), (t, w))) by reflexivity.
    rewrite (bind_returns _ _ _ Hh), lift_run.
    unfold txn_env, crossing.
    now destruct (mdb_txn_env (txn._handle t) (state w)).
Qed.

End ResetRenew.

(** ** Cursors, continued *)

Section CursorRenew.
Context {St : Type} `{EngineMore St}.

(** X9: [cursor::renew] passes the wrapper's current handle to
    [mdb_cursor_renew] and leaves the wrapper as it is, whether the engine
    reports success or not.  After [close()] the current handle is
    [nullptr]: a [renew] that follows a [close()] hands [nullptr] to the
    engine, and the wrapper's handle is still null afterwards whatever the
    engine answers. *)
Theorem renew_after_close_passes_null :
  forall (c : cursor.t) (txn : ptr) (w : World St),
    (let q := mdb_cursor_renew txn (cursor._handle c) (state w) in
     snd (Cursor.renew txn (c, w)) = (c, mk_World (snd q) (calls w))
     /\ (returns_normally (Cursor.renew txn (c, w)) <-> fst q = MDB_SUCCESS))
    /\ (let closed := snd (cursor.close (c, w)) in
        let q := mdb_cursor_renew txn nullptr (state (snd closed)) in
        snd (Cursor.renew txn closed)
        = (cursor.mk nullptr, mk_World (snd q) (calls (snd closed)))
        /\ (returns_normally (Cursor.renew txn closed) <-> fst q = MDB_SUCCESS)).
Proof.
  intros c txn w.
  assert (Hrenew : forall c0 w0,
             snd (Cursor.renew txn (c0, w0))
             = (c0, mk_World (snd (mdb_cursor_renew txn (cursor._handle c0) (state w0)))
                             (calls w0))
             /\ (returns_normally (Cursor.renew txn (c0, w0))
                 <-> fst (mdb_cursor_renew txn (cursor._handle c0) (state w0))
                     = MDB_SUCCESS)).
  { intros c0 w0. unfold Cursor.renew.
    rewrite (bind_returns _ _ _ (cursor_handle_run c0 w0)), lift_run.
    pose proof (propagates_status "mdb_cursor_renew"
                  (mdb_cursor_renew txn (cursor._handle c0)) w0) as P.
    fold (cursor_renew txn (cursor._handle c0)) in P.
    destruct P as (Hs & _ & _ & Hi). unfold returns_normally in *.
    cbn [fst snd] in *. now rewrite Hs. }
  split; [apply Hrenew|]. cbv zeta.
  destruct c as [k]. destruct (N.eq_dec k nullptr) as [-> | N].
  - rewrite cursor_close_closed. cbn [snd]. apply Hrenew.
  - rewrite (cursor_close_open (cursor.mk k) w N). cbn [snd].
    apply (Hrenew (cursor.mk nullptr)).
Qed.

End CursorRenew.

(** ** Database handles, continued *)

Section DatabaseHandles.
Context {St : Type} `{EngineMore St}.

Lemma dbi_handle_keeps : keeps_this (W:=World St) dbi.handle.
Proof. now intros o w. Qed.

(** X10: no method changes or closes a database handle wrapper.  After
    [stat], [size], [flags] and both [get] overloads the wrapper is the one
    the method was called on, whether the call returned or threw; the
    destructor returns without any engine call, so [mdb_dbi_close] is never
    called on the handle by the wrapper. *)
Theorem dbi_wrapper_is_never_changed :
  forall (K V : Type) (LK : Layout K) (LV : Layout V)
         (txn : ptr) (k : ptr) (v : V),
    keeps_this (W:=World St) (dbi.stat txn)
    /\ keeps_this (W:=World St) (dbi.size txn)
    /\ keeps_this (W:=World St) (Dbi.flags txn)
    /\ keeps_this (W:=World St) (dbi.get (K:=K) txn k)
    /\ (forall (d : dbi.t) (w : World St),
           fst (dbi.get_kv (K:=K) (V:=V) txn k v (d, w)) <> Undefined ->
           fst (snd (dbi.get_kv (K:=K) (V:=V) txn k v (d, w))) = d)
    /\ (forall (d : dbi.t) (w : World St),
           Dbi.destructor (d, w) = (Returns tt, (d, w))).
Proof.
  intros K V LK LV txn k v.
  assert (Hstat : keeps_this (W:=World St) (dbi.stat txn)).
  { apply keeps_this_bind; [apply dbi_handle_keeps|].
    intros h. apply keeps_this_lift. }
  split; [exact Hstat|].
  split.
  { apply keeps_this_bind; [exact Hstat|]. intros r. apply keeps_this_ret. }
  split.
  { apply keeps_this_bind; [apply dbi_handle_keeps|].
    intros h. apply keeps_this_lift. }
  split.
  { unfold dbi.get. cbv zeta.
    apply keeps_this_bind; [apply dbi_handle_keeps|]. intros h.
    apply keeps_this_bind; [apply keeps_this_lift|]. intros r.
    apply keeps_this_ret. }
  split.
  { intros d w _. revert d w. change (keeps_this (W:=World St)
                                         (dbi.get_kv (K:=K) (V:=V) txn k v)).
    unfold dbi.get_kv. cbv zeta.
    apply keeps_this_bind; [apply dbi_handle_keeps|]. intros h.
    apply keeps_this_bind; [apply keeps_this_lift|]. intros [result val'].
    destruct result; [|apply keeps_this_ret].
    apply keeps_this_bind; [apply keeps_this_lift|]. intros bs.
    apply keeps_this_ret. }
  intros [h] w. unfold Dbi.destructor, bind, this, ret. cbn [fst snd dbi._handle].
  now destruct (negb (N.eqb h 0)).
Qed.

End DatabaseHandles.

(** ** Lookups through the classes *)

Section MemberLookups.
Context {St : Type} `{Engine St}.

Lemma dbi_get_contract (txn : ptr) (dbi : MDB_dbi) (key data : MDB_val)
      (w : World St) :
  lookup_contract "mdb_get"
    (fst (fst (mdb_get txn dbi key data (state w))))
    (snd (fst (mdb_get txn dbi key data (state w))))
    (fst (dbi_get txn dbi key data w)).
Proof.
  unfold dbi_get, bind, foreign.
  destruct (mdb_get txn dbi key data (state w)) as [[rc data'] st']. cbn [fst snd].
  apply (lookup_contract_intro "mdb_get" rc data').
Qed.

Lemma cursor_get_contract (cursor : ptr) (key : MDB_val) (data : option MDB_val)
      (op : MDB_cursor_op) (w : World St) :
  lookup_contract "mdb_cursor_get"
    (fst (fst (fst (mdb_cursor_get cursor key data op (state w)))))
    (snd (fst (fst (mdb_cursor_get cursor key data op (state w)))),
     snd (fst (mdb_cursor_get cursor key data op (state w))))
    (fst (cursor_get cursor key data op w)).
Proof.
  unfold cursor_get, bind, foreign.
  destruct (mdb_cursor_get cursor key data op (state w)) as [[[rc key'] data'] st'].
  cbn [fst snd].
  apply (lookup_contract_intro "mdb_cursor_get" rc (key', data')).
Qed.

(** From the contract of a lookup wrapper to the boolean a method returns. *)
Lemma lookup_contract_bool {A} (name : string) (rc : Z) (v : A)
      (r : Outcome (bool * A)) :
  lookup_contract name rc v r ->
  let b := match r with
           | Returns p => Returns (fst p)
           | Throws e => Throws e
           | Undefined => Undefined
           end in
  (rc = MDB_NOTFOUND -> b = Returns false)
  /\ (b = Returns true <-> rc = MDB_SUCCESS)
  /\ (rc <> MDB_SUCCESS -> rc <> MDB_NOTFOUND ->
      exists e, b = Throws e /\ code e = rc /\ origin e = name).
Proof.
  intros (Ha & Hs & Hi & Ht). cbv zeta. split; [|split].
  - intros Hz. now rewrite (Ha Hz).
  - split.
    + destruct r as [[b x] | e | ]; try discriminate.
      cbn [fst]. intros Hb. inversion Hb. subst b. apply Hi. now exists x.
    + intros Hz. now rewrite (Hs Hz).
  - intros H0 H1. destruct (Ht H0 H1) as (e & -> & Hc & Ho & _). now exists e.
Qed.

(** X11: the lookups of the classes report an absent key as [false].
    [dbi::get(txn, k)] and [cursor::find(k)] return [false] when the
    engine reports [MDB_NOTFOUND], return [true] exactly when it reports
    [MDB_SUCCESS] and throw an error carrying the status and the name of the
    engine call on any other status; [cursor::find] asks for [MDB_SET].
    [cursor::get(key, data, op)] gives back what [cursor_get] gives for the
    wrapper's handle, [cursor::get(key, op)] is [get] with [data] null, and
    none of them changes the cursor wrapper. *)
Theorem member_lookups_report_absence :
  forall (K : Type) (LK : Layout K) (k : ptr) (txn : ptr) (d : dbi.t)
         (c : cursor.t) (key : MDB_val) (data : option MDB_val)
         (op : MDB_cursor_op) (w : World St),
    (let rc := fst (fst (mdb_get txn (dbi._handle d)
                           (mk_MDB_val (sizeof (T:=K)) k) MDB_val_zero (state w))) in
     let r := fst (dbi.get (K:=K) txn k (d, w)) in
     (rc = MDB_NOTFOUND -> r = Returns false)
     /\ (r = Returns true <-> rc = MDB_SUCCESS)
     /\ (rc <> MDB_SUCCESS -> rc <> MDB_NOTFOUND ->
         exists e, r = Throws e /\ code e = rc /\ origin e = "mdb_get"))
    /\ (let rc := fst (fst (fst (mdb_cursor_get (cursor._handle c)
                                   (mk_MDB_val (sizeof (T:=K)) k)
                                   (Some MDB_val_zero) MDB_SET (state w)))) in
        let r := fst (cursor.find (K:=K) k (c, w)) in
        (rc = MDB_NOTFOUND -> r = Returns false)
        /\ (r = Returns true <-> rc = MDB_SUCCESS)
        /\ (rc <> MDB_SUCCESS -> rc <> MDB_NOTFOUND ->
            exists e, r = Throws e /\ code e = rc /\ origin e = "mdb_cursor_get"))
    /\ cursor.get key data op (c, w)
       = (fst (cursor_get (cursor._handle c) key data op w),
          (c, snd (cursor_get (cursor._handle c) key data op w)))
    /\ cursor.get_key key op (c, w) = cursor.get key None op (c, w)
    /\ fst (snd (cursor.find (K:=K) k (c, w))) = c.
Proof.
  intros K LK k txn d c key data op w.
  assert (Hget : forall key0 data0,
             cursor.get key0 data0 op (c, w)
             = (fst (cursor_get (cursor._handle c) key0 data0 op w),
                (c, snd (cursor_get (cursor._handle c) key0 data0 op w)))).
  { intros key0 data0. unfold cursor.get.
    rewrite (bind_returns _ _ _ (cursor_handle_run c w)). apply lift_run. }
  split; [|split; [|split; [|split]]].
  - cbv zeta. unfold dbi.get. cbv zeta.
    rewrite (bind_returns _ _ _ (dbi_handle_run d w)).
    pose proof (lookup_contract_bool
                  (dbi_get_contract txn (dbi._handle d)
                     (mk_MDB_val (sizeof (T:=K)) k) MDB_val_zero w)) as B.
    cbv zeta in B. unfold bind. rewrite lift_run.
    destruct (fst (dbi_get txn (dbi._handle d) (mk_MDB_val (sizeof (T:=K)) k)
                     MDB_val_zero w)) as [[b x] | e | ]; exact B.
  - cbv zeta. unfold cursor.find. cbv zeta.
    pose proof (lookup_contract_bool
                  (cursor_get_contract (cursor._handle c)
                     (mk_MDB_val (sizeof (T:=K)) k) (Some MDB_val_zero) MDB_SET w))
      as B.
    cbv zeta in B. unfold bind.
    assert (Hg : cursor.get (mk_MDB_val (sizeof (T:=K)) k) (Some MDB_val_zero)
                   MDB_SET (c, w)
                 = (fst (cursor_get (cursor._handle c) (mk_MDB_val (sizeof (T:=K)) k)
                           (Some MDB_val_zero) MDB_SET w),
                    (c, snd (cursor_get (cursor._handle c)
                               (mk_MDB_val (sizeof (T:=K)) k)
                               (Some MDB_val_zero) MDB_SET w)))).
    { unfold cursor.get.
      rewrite (bind_returns _ _ _ (cursor_handle_run c w)). apply lift_run. }
    rewrite Hg.
    destruct (fst (cursor_get (cursor._handle c) (mk_MDB_val (sizeof (T:=K)) k)
                     (Some MDB_val_zero) MDB_SET w)) as [[b x] | e | ]; exact B.
  - apply Hget.
  - reflexivity.
  - unfold cursor.find. cbv zeta.
    apply (keeps_this_bind (O:=cursor.t) (W:=World St)).
    + intros o w0. unfold cursor.get.
      rewrite (bind_returns _ _ _ (cursor_handle_run o w0)). now rewrite lift_run.
    + intros r. apply keeps_this_ret.
Qed.

End MemberLookups.

(** ** Byte views, continued *)

Lemma load_bytes_prefix (m : Memory) (p : ptr) (chars rest : list byte) (b : byte) :
  p <> nullptr ->
  skipn (N.to_nat p) m = chars ++ b :: rest ->
  load_bytes m p (N.of_nat (List.length chars)) = Some chars.
Proof.
  intros Hp Hm. unfold load_bytes.
  apply N.eqb_neq in Hp. rewrite Hp, Nat2N.id.
  assert (L : List.length (skipn (N.to_nat p) m)
              = (List.length chars + S (List.length rest))%nat)
    by (rewrite Hm, length_app; reflexivity).
  rewrite length_skipn in L.
  destruct (Nat.leb_spec (N.to_nat p + List.length chars) (List.length m)) as [_|Hlt];
    [|lia].
  rewrite Hm, firstn_app, Nat.sub_diag, firstn_all. cbn [firstn].
  now rewrite app_nil_r.
Qed.

Lemma scan_to_nul_split (bs : list byte) (n : size_t) :
  scan_to_nul bs = Some n ->
  exists chars rest,
    bs = chars ++ x00 :: rest
    /\ Forall (fun b => b <> x00) chars
    /\ N.of_nat (List.length chars) = n.
Proof.
  intros Hn. destruct (scan_to_nul_sound bs Hn) as [F Z0].
  destruct (nth_error_split bs (N.to_nat n) Z0) as (l1 & l2 & Hb & Hl).
  exists l1, l2. split; [exact Hb|]. split.
  - rewrite Hb, <- Hl, firstn_app, Nat.sub_diag, firstn_all in F. cbn [firstn] in F.
    now rewrite app_nil_r in F.
  - rewrite Hl. apply N2Nat.id.
Qed.

Section StringViews.
Context {St : Type} `{Engine St}.

(** X12: the view [val(const char* data)] builds denotes the string, terminator
    excluded.  The constructor has a result exactly when a null-terminated
    string lies at the address; the view then denotes the bytes before the
    terminator and no other, and it is the view [val(const std::string&)]
    builds from a string object with that data pointer and that many
    characters. *)
Theorem c_string_view_denotes_the_string :
  forall (s : ptr) (w : World St),
    (returns_normally (val.from_c_str s w)
     <-> exists chars, c_string_at (heap (state w)) s chars)
    /\ (forall chars,
           c_string_at (heap (state w)) s chars ->
           exists v,
             val.from_c_str s w = (Returns v, w)
             /\ view_bytes (heap (state w)) (val.to_MDB_val v) = Some chars
             /\ v = val.from_string
                      (val.mk_std_string s (N.of_nat (List.length chars)))).
Proof.
  intros s w.
  assert (Hrun : forall chars,
             c_string_at (heap (state w)) s chars ->
             val.from_c_str s w
             = (Returns (val.from_data_size s (N.of_nat (List.length chars))), w)).
  { intros chars (Hs & Hchars & rest & Hmem).
    unfold val.from_c_str, strlen.
    apply N.eqb_neq in Hs. rewrite Hs, Hmem.
    now rewrite (scan_to_nul_terminated rest Hchars). }
  split; [split|].
  - intros [v Hv]. unfold val.from_c_str, strlen in Hv.
    destruct (N.eqb_spec s nullptr) as [Hz | Hnz]; [discriminate Hv|].
    destruct (scan_to_nul (skipn (N.to_nat s) (heap (state w)))) as [n|] eqn:Hn;
      [|discriminate Hv].
    destruct (scan_to_nul_split _ Hn) as (chars & rest & Hb & F & _).
    exists chars. split; [exact Hnz|]. split; [exact F|]. now exists rest.
  - intros [chars Hc]. rewrite (Hrun chars Hc). eexists; reflexivity.
  - intros chars Hc. eexists. split; [apply (Hrun chars Hc)|].
    split; [|reflexivity].
    destruct Hc as (Hs & _ & rest & Hmem).
    unfold view_bytes, val.to_MDB_val, val.from_data_size. cbn [val._val mv_data mv_size].
    apply (@load_bytes_prefix _ _ _ _ _ Hs Hmem).
Qed.

(** X13: [dbi::get(txn, k, v)] gives back a stored object.  When the engine
    reports success and the view it filled in points at the object
    representation of some [x] of type [V], the call returns [true] with
    [v] equal to [x]. *)
Theorem get_kv_returns_stored_object :
  forall (K V : Type) (LK : Layout K) (LV : Layout V)
         (txn : ptr) (a : ptr) (v : V) (d : dbi.t) (w : World St) (x : V),
    let reply := mdb_get txn (dbi._handle d) (mk_MDB_val (sizeof (T:=K)) a)
                         MDB_val_zero (state w) in
    fst (fst reply) = MDB_SUCCESS ->
    stored_at (heap (snd reply)) (mv_data (snd (fst reply))) x ->
    fst (dbi.get_kv (K:=K) (V:=V) txn a v (d, w)) = Returns (true, x).
Proof.
  intros K V LK LV txn a v d w x. cbv zeta. intros Hz Hx.
  rewrite (get_kv_found LK LV txn a v d w Hz).
  unfold stored_at in Hx. rewrite Hx. now rewrite from_object_bytes.
Qed.

End StringViews.

(** X13, at a concrete input: the record [07 aa bb cc] at address 8. *)
Lemma get_kv_returns_stored_object_witness :
  fst (dbi.get_kv (K:=byte) (V:=char4) 4096%N 5%N (mk_char4 x00 x00 x00 x00)
         (dbi.mk 1%N, sample_world MDB_SUCCESS (mk_MDB_val 4%N 8%N)))
  = Returns (true, mk_char4 x07 xaa xbb xcc).
Proof.
  apply (@get_kv_returns_stored_object Script scripted_engine byte char4
           uchar_layout char4_layout 4096%N 5%N (mk_char4 x00 x00 x00 x00)
           (dbi.mk 1%N) (sample_world MDB_SUCCESS (mk_MDB_val 4%N 8%N))
           (mk_char4 x07 xaa xbb xcc)); reflexivity.
Defined.

(** ** The text of an error *)





(** ** Runs on the counting engine *)

(** [env::create(3)] when [mdb_env_set_flags] answers [EINVAL] (22): the
    error leaves the function and no handle stays live (the [return]
    statement is not reached, so elision plays no part). *)
Example create_failure_leaves_nothing_live :
  let r := Env.create false true 3%N (sim_world [MDB_SUCCESS; 22%Z]) in
  fst r = Throws (mk_exception runtime_error "mdb_env_set_flags" 22)
  /\ live (state (snd r)) = []
  /\ calls (snd r) = [Call_env_close 4096%N].
Proof. repeat split. Qed.

(** [env::create(0)] without copy elision: the wrapper that comes back
    holds handle 4096, which the destructor of the temporary has already
    released. *)
Example create_without_elision_returns_released_handle :
  let r := Env.create false false 0%N (sim_world [MDB_SUCCESS]) in
  fst r = Returns (env.mk 4096%N)
  /\ live (state (snd r)) = []
  /\ calls (snd r) = [Call_env_close 4096%N].
Proof. repeat split. Qed.

(** An environment that is created, fails to open and goes out of scope is
    released (copies elided, in [create] and in the caller). *)
Example failed_open_is_released_at_scope_exit :
  let r := (e <- lift (Env.create false true 0%N) ;;
            (assign_this e ;;;
             (try_catch (Env.open 1%N 0%N Env.default_mode ;;; ret tt) lmdb_error
                        (fun _ => ret tt) ;;;
              env.destructor)))
             (env.mk nullptr, sim_world [MDB_SUCCESS; 2%Z]) in
  fst r = Returns tt
  /\ live (state (snd (snd r))) = []
  /\ calls (snd (snd r)) = [Call_env_close 4096%N].
Proof. repeat split. Qed.

(** A transaction that goes out of scope unresolved stays live in the
    engine. *)
Example unresolved_transaction_stays_live :
  let r := (t <- lift (Txn.begin false 4096%N nullptr Txn.default_flags) ;;
            (assign_this t ;;; txn.destructor))
             (txn.mk nullptr, sim_world []) in
  fst r = Returns tt
  /\ live (state (snd (snd r))) = [4096%N]
  /\ calls (snd (snd r)) = [].
Proof. repeat split. Qed.
